(** * wagtail.contrib.modeladmin.options

    A shallow embedding of [wagtail/contrib/modeladmin/options.py]:
    the [ThumbnailMixin], [ModelAdmin] and [ModelAdminGroup] classes.

    Python objects are modelled as follows.
    - The class attributes of a [ModelAdmin] subclass are a record; a
      subclass is a value of that record.
    - The attributes that [__init__] assigns on the instance live in the
      instance dictionary, a [gmap string AttrVal]; reading one that was
      never assigned raises [AttributeError].
    - Exceptions are values of [Exn]; a method that can raise returns a
      [Result]. Constructing a helper is the one effect the module has at
      construction time, so [__init__] runs in [Run], an error monad that
      also threads the list of helpers instantiated so far.
    - [x or y] is [if truthy x then x else y].
    - What the module imports and only calls (the helpers' methods, the
      snippet registry, [flatatt], the explorer queryset, [str.lower()] and
      [str.title()]) is taken as a parameter, through a class. *)

From Stdlib Require Import ZArith Ascii String.
From stdpp Require Import gmap strings list fin_maps.

Local Open Scope string_scope.
Local Open Scope Z_scope.
Local Open Scope list_scope.
Local Open Scope stdpp_scope.

(** ** Exceptions and results *)

Inductive Exn :=
| ImproperlyConfigured
| TypeError
| AttributeError
| IndexError.

#[export] Instance Exn_eq_dec : EqDecision Exn.
Proof. solve_decision. Defined.

Inductive Result (A : Type) :=
| Ok (a : A)
| Raise (e : Exn).
Arguments Ok {A} a.
Arguments Raise {A} e.

#[export] Instance Result_ret : MRet Result := fun A a => Ok a.
#[export] Instance Result_bind : MBind Result := fun A B f r =>
  match r with
  | Ok a => f a
  | Raise e => Raise e
  end.
#[export] Instance Result_fmap : FMap Result := fun A B f r =>
  match r with
  | Ok a => Ok (f a)
  | Raise e => Raise e
  end.

(** [try: body except exc: handler] *)
Definition try_except {A} (body : Result A) (exc : Exn) (handler : Result A)
  : Result A :=
  match body with
  | Ok a => Ok a
  | Raise e => if decide (e = exc) then handler else Raise e
  end.

(** [for x in xs: acc = body(acc, x)] where the body may raise. *)
Fixpoint for_each {A B} (body : B → A → Result B) (xs : list A) (acc : B)
  : Result B :=
  match xs with
  | [] => Ok acc
  | x :: rest => acc' ← body acc x; for_each body rest acc'
  end.

(** ** Truthiness *)

Class Truthy (A : Type) := truthy : A → bool.

#[export] Instance bool_truthy : Truthy bool := fun b => b.
#[export] Instance Z_truthy : Truthy Z := fun z => negb (z =? 0).
#[export] Instance string_truthy : Truthy string := fun s =>
  match s with
  | EmptyString => false
  | String _ _ => true
  end.
#[export] Instance list_truthy {A} : Truthy (list A) := fun l =>
  match l with
  | [] => false
  | _ :: _ => true
  end.
(** An attribute that is [None] or a value of type [A]. *)
#[export] Instance option_truthy {A} `{Truthy A} : Truthy (option A) := fun o =>
  match o with
  | None => false
  | Some a => truthy a
  end.

(** [x or d] for an attribute [x] that is [None] or holds a value. *)
Definition or_else {A} `{Truthy A} (x : option A) (d : A) : A :=
  match x with
  | Some a => if truthy a then a else d
  | None => d
  end.

(** ** Strings *)

(** [str.lower()] and [str.title()] are Python's own, defined on unicode
    strings; the module only calls them. *)
Class Builtins := {
  (** [s.lower()] *)
  str_lower : string → string;
  (** [s.title()] *)
  str_title : string → string;
}.

(** What the two methods do on a string of ASCII characters, for the example
    classes, whose labels are ASCII. *)
Definition lower_ascii (a : ascii) : ascii :=
  let n := nat_of_ascii a in
  if ((65 <=? n)%nat && (n <=? 90)%nat)%bool then ascii_of_nat (n + 32) else a.

Fixpoint ascii_lower (s : string) : string :=
  match s with
  | EmptyString => EmptyString
  | String a rest => String (lower_ascii a) (ascii_lower rest)
  end.

Definition is_lower_ascii (a : ascii) : bool :=
  let n := nat_of_ascii a in ((97 <=? n)%nat && (n <=? 122)%nat)%bool.

Definition is_upper_ascii (a : ascii) : bool :=
  let n := nat_of_ascii a in ((65 <=? n)%nat && (n <=? 90)%nat)%bool.

Definition upper_ascii (a : ascii) : ascii :=
  if is_lower_ascii a then ascii_of_nat (nat_of_ascii a - 32) else a.

(** A cased character is put in upper case when the one before it is not
    cased, and in lower case when it is. *)
Fixpoint ascii_title_from (previous_is_cased : bool) (s : string) : string :=
  match s with
  | EmptyString => EmptyString
  | String a rest =>
      if is_lower_ascii a then
        String (if previous_is_cased then a else upper_ascii a)
          (ascii_title_from true rest)
      else if is_upper_ascii a then
        String (if previous_is_cased then lower_ascii a else a)
          (ascii_title_from true rest)
      else String a (ascii_title_from false rest)
  end.

Definition ascii_title (s : string) : string := ascii_title_from false s.

(** ** Django models *)

(** A reference to a class, as in [f.related_model]; always true. *)
Inductive ClassRef := ClassNamed (qualname : string).

#[export] Instance ClassRef_eq_dec : EqDecision ClassRef.
Proof. solve_decision. Defined.

#[export] Instance ClassRef_truthy : Truthy ClassRef := fun _ => true.

(** An entry of [model._meta.get_fields()]. *)
Record Field := {
  name : string;
  concrete : bool;
  is_relation : bool;
  auto_created : bool;
  related_model : option ClassRef;
}.

#[export] Instance Field_eq_dec : EqDecision Field.
Proof. solve_decision. Defined.

(** [model._meta] *)
Record Options := {
  app_label : string;
  model_name : string;
  verbose_name_plural : string;
  get_fields : list Field;
}.

#[export] Instance Options_eq_dec : EqDecision Options.
Proof. solve_decision. Defined.

(** A class object. A subclass of [django.db.models.Model] carries the
    [_meta] its metaclass gave it; [page] says whether it also derives from
    [wagtail.wagtailcore.models.Page] (itself a [Model]). [BaseModel] is
    [django.db.models.Model] itself, the one class of the hierarchy that has
    no [_meta]. *)
Inductive PyClass :=
| PlainClass (qualname : string)
| ModelClass (qualname : string) (page : bool) (_meta : Options)
| BaseModel.

#[export] Instance PyClass_eq_dec : EqDecision PyClass.
Proof. solve_decision. Defined.

(** The values the [model] class attribute can hold: [None] (the default),
    a string (such as the dotted path of a model), a class, or any other
    object, of which only the truth value matters. *)
Inductive ModelAttr :=
| MNone
| MStr (s : string)
| MClass (c : PyClass)
| MObject (truth : bool).

#[export] Instance ModelAttr_truthy : Truthy ModelAttr := fun m =>
  match m with
  | MNone => false
  | MStr s => truthy s
  | MClass _ => true
  | MObject truth => truth
  end.

Inductive Base := Model | Page.

(** [issubclass(m, base)]; its first argument must be a class. *)
Definition issubclass (m : ModelAttr) (base : Base) : Result bool :=
  match m with
  | MClass (PlainClass _) => Ok false
  | MClass (ModelClass _ page _) =>
      match base with
      | Model => Ok true
      | Page => Ok page
      end
  | MClass BaseModel =>
      match base with
      | Model => Ok true
      | Page => Ok false
      end
  | MNone | MStr _ | MObject _ => Raise TypeError
  end.

(** [m._meta] *)
Definition get_meta (m : ModelAttr) : Result Options :=
  match m with
  | MClass (ModelClass _ _ o) => Ok o
  | _ => Raise AttributeError
  end.

(** [m in classes] *)
Definition class_in (m : ModelAttr) (classes : list PyClass) : bool :=
  match m with
  | MClass c => bool_decide (c ∈ classes)
  | _ => false
  end.

(** ** Helpers (helpers.py) *)

Inductive HelperClass :=
| PermissionHelper
| PagePermissionHelper
| AdminURLHelper
| PageAdminURLHelper
| ButtonHelper
| PageButtonHelper
| CustomHelper (qualname : string).

#[export] Instance HelperClass_eq_dec : EqDecision HelperClass.
Proof. solve_decision. Defined.

(** A helper instance: the class that was called and the arguments it was
    called with ([inspect_view_enabled] only for permission helpers). *)
Record Helper := {
  helper_class : HelperClass;
  helper_model : ModelAttr;
  helper_inspect_view_enabled : option bool;
}.

(** ** Construction-time effects *)

(** A computation that may raise and that instantiates helpers: it takes
    the helpers instantiated so far and returns them extended. *)
Definition Run (A : Type) : Type := list Helper → Result A * list Helper.

#[export] Instance Run_ret : MRet Run := fun A a log => (Ok a, log).
#[export] Instance Run_bind : MBind Run := fun A B f m log =>
  match m log with
  | (Ok a, log') => f a log'
  | (Raise e, log') => (Raise e, log')
  end.

Definition lift {A} (r : Result A) : Run A := fun log => (r, log).
Definition raise {A} (e : Exn) : Run A := lift (Raise e).

(** [helper_class(model, ...)] *)
Definition instantiate (c : HelperClass) (m : ModelAttr) (ive : option bool)
  : Run Helper := fun log =>
  let h := {| helper_class := c; helper_model := m;
              helper_inspect_view_enabled := ive |} in
  (Ok h, log ++ [h]).

(** ** What the module imports and only calls *)

Definition Permission : Type := string.
Definition Image : Type := string.

Inductive HtmlVal :=
| HNone
| HInt (z : Z)
| HStr (s : string).

Class Environment := {
  (** [url_helper.get_action_url_pattern(action)] *)
  get_action_url_pattern : Helper → string → string;
  (** [url_helper.get_action_url_name(action)] *)
  get_action_url_name : Helper → string → string;
  (** [permission_helper.get_all_model_permissions()] *)
  get_all_model_permissions : Helper → list Permission;
  (** [wagtail.wagtailsnippets.models.SNIPPET_MODELS] *)
  SNIPPET_MODELS : list PyClass;
  (** [image.get_rendition(Filter(spec=spec)).url] *)
  get_rendition_url : Image → string → string;
  (** [django.forms.widgets.flatatt] *)
  flatatt : gmap string HtmlVal → string;
}.

(** The explorer's page queryset and its [not_type(model)] filter
    ([wagtail.wagtailcore.query.PageQuerySet]). *)
Class Explorer := {
  PageQuerySet : Type;
  not_type : PageQuerySet → ModelAttr → PageQuerySet;
}.

(** ** class ThumbnailMixin *)

Module ThumbnailMixin.

(** The class attributes of a class using the mixin. *)
Record t := {
  thumb_image_field_name : string;
  thumb_image_filter_spec : string;
  thumb_image_width : Z;
  thumb_classname : string;
  thumb_default : option string;
}.

(** The values the mixin itself declares. *)
Definition defaults : t := {|
  thumb_image_field_name := "image";
  thumb_image_filter_spec := "fill-100x100";
  thumb_image_width := 50;
  thumb_classname := "admin-thumb";
  thumb_default := None;
|}.

(** [getattr(obj, name, default)]: with a default, a missing attribute
    does not raise. An object is the map of its attributes. *)
Definition getattr {V} (obj : gmap string V) (name : string) (d : V)
  : Result V :=
  Ok (default d (obj !! name)).

Definition html_of (s : option string) : HtmlVal :=
  match s with
  | None => HNone
  | Some s => HStr s
  end.

Section methods.
Context `{Environment}.

(** An attribute of [obj] is [None] or an image. *)
Definition admin_thumb (self : t) (obj : gmap string (option Image))
  : Result string :=
  image ← try_except
             (getattr obj (thumb_image_field_name self) None)
             AttributeError
             (Raise ImproperlyConfigured);
  let img_attrs : gmap string HtmlVal :=
    {[ "src" := html_of (thumb_default self);
       "width" := HInt (thumb_image_width self);
       "class" := HStr (thumb_classname self) ]} in
  match image with
  | Some image =>
      let fltr := thumb_image_filter_spec self in
      let img_attrs :=
        <["src" := HStr (get_rendition_url image fltr)]> img_attrs in
      Ok ("<img" +:+ flatatt img_attrs +:+ ">")
  | None =>
      if truthy (thumb_default self)
      then Ok ("<img" +:+ flatatt img_attrs +:+ ">")
      else Ok ""
  end.
End methods.

End ThumbnailMixin.

(** ** class ModelAdmin *)

Module ModelAdmin.

(** The class attributes of a [ModelAdmin] subclass. *)
Record cls := {
  model : ModelAttr;
  menu_order : option Z;
  list_display : list string;
  list_display_add_buttons : option string;
  inspect_view_fields : list string;
  inspect_view_fields_exclude : list string;
  inspect_view_enabled : bool;
  index_template_name : string;
  create_template_name : string;
  edit_template_name : string;
  inspect_template_name : string;
  delete_template_name : string;
  choose_parent_template_name : string;
  permission_helper_class : option HelperClass;
  url_helper_class : option HelperClass;
  button_helper_class : option HelperClass;
  exclude_from_explorer : bool;
}.

(** The values [ModelAdmin] itself declares, for a given [model]. *)
Definition declare (m : ModelAttr) : cls := {|
  model := m;
  menu_order := None;
  list_display := ["__str__"];
  list_display_add_buttons := None;
  inspect_view_fields := [];
  inspect_view_fields_exclude := [];
  inspect_view_enabled := false;
  index_template_name := "";
  create_template_name := "";
  edit_template_name := "";
  inspect_template_name := "";
  delete_template_name := "";
  choose_parent_template_name := "";
  permission_helper_class := None;
  url_helper_class := None;
  button_helper_class := None;
  exclude_from_explorer := false;
|}.

(** What [__init__] stores on the instance. [parent] is the name of the
    group class that instantiated it, if any. *)
Inductive AttrVal :=
| AOpts (o : Options)
| ABool (b : bool)
| AParent (p : option string)
| AHelper (h : Helper).

#[export] Instance AttrVal_truthy : Truthy AttrVal := fun v =>
  match v with
  | AOpts _ => true
  | ABool b => b
  | AParent p => bool_decide (is_Some p)
  | AHelper _ => true
  end.

(** An instance: its class and its instance dictionary. *)
Record t := {
  klass : cls;
  __dict__ : gmap string AttrVal;
}.

(** [self.name = v] *)
Definition setattr (self : t) (name : string) (v : AttrVal) : t :=
  {| klass := klass self; __dict__ := <[name := v]> (__dict__ self) |}.

(** [self.name], for a name that is not a class attribute. *)
Definition getattr (self : t) (name : string) : Result AttrVal :=
  match __dict__ self !! name with
  | Some v => Ok v
  | None => Raise AttributeError
  end.

Definition opts (self : t) : Result Options :=
  v ← getattr self "opts";
  match v with
  | AOpts o => Ok o
  | _ => Raise AttributeError
  end.

Definition is_pagemodel (self : t) : Result bool :=
  v ← getattr self "is_pagemodel"; Ok (truthy v).

Definition permission_helper (self : t) : Result Helper :=
  v ← getattr self "permission_helper";
  match v with
  | AHelper h => Ok h
  | _ => Raise AttributeError
  end.

Definition url_helper (self : t) : Result Helper :=
  v ← getattr self "url_helper";
  match v with
  | AHelper h => Ok h
  | _ => Raise AttributeError
  end.

(** An override attribute is [None] or a class, and a class is true. *)
Definition get_permission_helper_class (self : t) : Result HelperClass :=
  match permission_helper_class (klass self) with
  | Some c => Ok c
  | None =>
      pg ← is_pagemodel self;
      if (pg : bool) then Ok PagePermissionHelper else Ok PermissionHelper
  end.

Definition get_url_helper_class (self : t) : Result HelperClass :=
  match url_helper_class (klass self) with
  | Some c => Ok c
  | None =>
      pg ← is_pagemodel self;
      if (pg : bool) then Ok PageAdminURLHelper else Ok AdminURLHelper
  end.

Definition get_button_helper_class (self : t) : Result HelperClass :=
  match button_helper_class (klass self) with
  | Some c => Ok c
  | None =>
      pg ← is_pagemodel self;
      if (pg : bool) then Ok PageButtonHelper else Ok ButtonHelper
  end.

Definition __init__ (c : cls) (parent : option string) : Run t :=
  let self := {| klass := c; __dict__ := ∅ |} in
  invalid ← lift (if negb (truthy (model c)) then Ok true
                  else negb <$> issubclass (model c) Model);
  if (invalid : bool) then raise ImproperlyConfigured else
  o ← lift (get_meta (model c));
  let self := setattr self "opts" (AOpts o) in
  pg ← lift (issubclass (model c) Page);
  let self := setattr self "is_pagemodel" (ABool pg) in
  let self := setattr self "parent" (AParent parent) in
  phc ← lift (get_permission_helper_class self);
  ph ← instantiate phc (model c) (Some (inspect_view_enabled c));
  let self := setattr self "permission_helper" (AHelper ph) in
  uhc ← lift (get_url_helper_class self);
  uh ← instantiate uhc (model c) None;
  let self := setattr self "url_helper" (AHelper uh) in
  mret self.

(** [seq[i]] for an index counted from the front. *)
Definition getitem {A} (seq : list A) (i : nat) : Result A :=
  match seq !! i with
  | Some a => Ok a
  | None => Raise IndexError
  end.

Definition get_menu_order (self : t) : Z :=
  or_else (menu_order (klass self)) 999.

(** The request object is only passed along. *)
Record HttpRequest := { path : string }.

Definition get_list_display (self : t) (request : HttpRequest) : list string :=
  list_display (klass self).

Definition get_list_display_add_buttons (self : t) (request : HttpRequest)
  : Result string :=
  match list_display_add_buttons (klass self) with
  | Some x => if truthy x then Ok x else getitem (get_list_display self request) 0
  | None => getitem (get_list_display self request) 0
  end.

Definition get_inspect_view_fields (self : t) : Result (list string) :=
  if negb (truthy (inspect_view_fields (klass self))) then
    meta ← get_meta (model (klass self));
    Ok (fold_left
          (λ found_fields f,
             if negb (bool_decide (name f ∈ inspect_view_fields_exclude (klass self)))
             then
               if concrete f &&
                  (negb (is_relation f) ||
                   (negb (auto_created f) && truthy (related_model f)))
               then found_fields ++ [name f]
               else found_fields
             else found_fields)
          (get_fields meta) [])
  else Ok (inspect_view_fields (klass self)).

(** A template getter returns one name or a list of names to try. *)
Inductive Template :=
| TName (template_name : string)
| TList (templates : list string).

Section templates.
Context `{Builtins}.

Definition get_templates (self : t) (action : string) : Result (list string) :=
  o ← opts self;
  let app_label := str_lower (app_label o) in
  let model_name := str_lower (model_name o) in
  Ok [ "modeladmin/" +:+ app_label +:+ "/" +:+ model_name +:+ "/" +:+ action +:+ ".html";
       "modeladmin/" +:+ app_label +:+ "/" +:+ action +:+ ".html";
       "modeladmin/" +:+ action +:+ ".html" ].

Definition get_index_template (self : t) : Result Template :=
  if truthy (index_template_name (klass self))
  then Ok (TName (index_template_name (klass self)))
  else TList <$> get_templates self "index".

Definition get_choose_parent_template (self : t) : Result Template :=
  if truthy (choose_parent_template_name (klass self))
  then Ok (TName (choose_parent_template_name (klass self)))
  else TList <$> get_templates self "choose_parent".

Definition get_inspect_template (self : t) : Result Template :=
  if truthy (inspect_template_name (klass self))
  then Ok (TName (inspect_template_name (klass self)))
  else TList <$> get_templates self "inspect".

Definition get_create_template (self : t) : Result Template :=
  if truthy (create_template_name (klass self))
  then Ok (TName (create_template_name (klass self)))
  else TList <$> get_templates self "create".

Definition get_edit_template (self : t) : Result Template :=
  if truthy (edit_template_name (klass self))
  then Ok (TName (edit_template_name (klass self)))
  else TList <$> get_templates self "edit".

Definition get_delete_template (self : t) : Result Template :=
  if truthy (delete_template_name (klass self))
  then Ok (TName (delete_template_name (klass self)))
  else TList <$> get_templates self "delete".
End templates.

(** A bound method such as [self.index_view]. *)
Record BoundMethod := {
  im_self : t;
  im_func : string;
}.

(** [django.conf.urls.url(regex, view, name=name)] *)
Record url := {
  regex : string;
  view : BoundMethod;
  url_name : string;
}.

Section registration.
Context `{Environment}.

Definition get_permissions_for_registration (self : t)
  : Result (list Permission) :=
  pg ← is_pagemodel self;
  if negb pg && negb (class_in (model (klass self)) SNIPPET_MODELS) then
    ph ← permission_helper self;
    Ok (get_all_model_permissions ph)
  else Ok [].

(** [url(url_helper.get_action_url_pattern(action), self.<view>,
         name=url_helper.get_action_url_name(action))] *)
Definition action_url (self : t) (action : string) (view_name : string)
  : Result url :=
  uh ← url_helper self;
  Ok {| regex := get_action_url_pattern uh action;
        view := {| im_self := self; im_func := view_name |};
        url_name := get_action_url_name uh action |}.

Definition get_admin_urls_for_registration (self : t) : Result (list url) :=
  u_index ← action_url self "index" "index_view";
  u_create ← action_url self "create" "create_view";
  u_edit ← action_url self "edit" "edit_view";
  u_delete ← action_url self "delete" "delete_view";
  let urls := [u_index; u_create; u_edit; u_delete] in
  urls ← (if inspect_view_enabled (klass self) then
            u_inspect ← action_url self "inspect" "inspect_view";
            Ok (urls ++ [u_inspect])
          else Ok urls);
  pg ← is_pagemodel self;
  if (pg : bool) then
    u_choose ← action_url self "choose_parent" "choose_parent_view";
    Ok (urls ++ [u_choose])
  else Ok urls.
End registration.

Definition will_modify_explorer_page_queryset (self : t) : Result bool :=
  pg ← is_pagemodel self;
  Ok (pg && exclude_from_explorer (klass self)).

(** [ModelAdminMenuItem(model_admin, order)] (menus.py): the arguments it
    was built from. *)
Record ModelAdminMenuItem := {
  item_model_admin : t;
  item_order : Z;
}.

(** [order] is [None] unless the caller passes one. *)
Definition get_menu_item (self : t) (order : option Z) : ModelAdminMenuItem :=
  {| item_model_admin := self;
     item_order := or_else order (get_menu_order self) |}.

Section explorer.
Context `{Explorer}.

(** [parent_page] and [request] are only received. *)
Definition modify_explorer_page_queryset (self : t) (parent_page : string)
    (queryset : PageQuerySet) (request : HttpRequest) : Result PageQuerySet :=
  pg ← is_pagemodel self;
  if (pg : bool) && exclude_from_explorer (klass self)
  then Ok (not_type queryset (model (klass self)))
  else Ok queryset.
End explorer.

End ModelAdmin.

(** ** class ModelAdminGroup *)

Module ModelAdminGroup.

(** The class attributes of a [ModelAdminGroup] subclass. *)
Record cls := {
  __name__ : string;
  items : list ModelAdmin.cls;
  menu_order : option Z;
}.

Record t := {
  klass : cls;
  modeladmin_instances : list ModelAdmin.t;
}.

(** [for ModelAdminClass in self.items:
       self.modeladmin_instances.append(ModelAdminClass(parent=self))] *)
Fixpoint instantiate_items (parent : string) (items : list ModelAdmin.cls)
    (instances : list ModelAdmin.t) : Run (list ModelAdmin.t) :=
  match items with
  | [] => mret instances
  | ModelAdminClass :: rest =>
      inst ← ModelAdmin.__init__ ModelAdminClass (Some parent);
      instantiate_items parent rest (instances ++ [inst])
  end.

Definition __init__ (c : cls) : Run t :=
  instances ← instantiate_items (__name__ c) (items c) [];
  mret {| klass := c; modeladmin_instances := instances |}.

Definition get_menu_order (self : t) : Z :=
  or_else (menu_order (klass self)) 999.

Section registration.
Context `{Environment}.

Definition get_admin_urls_for_registration (self : t)
  : Result (list ModelAdmin.url) :=
  for_each
    (λ urls instance,
       u ← ModelAdmin.get_admin_urls_for_registration instance;
       Ok (urls ++ u))
    (modeladmin_instances self) [].
End registration.

(** [any(instance.will_modify_explorer_page_queryset() for instance in ...)] *)
Fixpoint any_will_modify (instances : list ModelAdmin.t) : Result bool :=
  match instances with
  | [] => Ok false
  | instance :: rest =>
      b ← ModelAdmin.will_modify_explorer_page_queryset instance;
      if (b : bool) then Ok true else any_will_modify rest
  end.

Definition will_modify_explorer_page_queryset (self : t) : Result bool :=
  any_will_modify (modeladmin_instances self).

(** [for instance in self.modeladmin_instances: return ...] returns at the
    first member; [return ''] is reached when there is none. *)
Definition get_app_label_from_subitems `{Builtins} (self : t) : Result string :=
  match modeladmin_instances self with
  | instance :: _ => o ← ModelAdmin.opts instance; Ok (str_title (app_label o))
  | [] => Ok ""
  end.

(** The loop of [get_submenu_items] carries the list and the counter. *)
Definition get_submenu_items (self : t) : list ModelAdmin.ModelAdminMenuItem :=
  fst (fold_left
         (λ '(menu_items, item_order) modeladmin,
            (menu_items ++ [ModelAdmin.get_menu_item modeladmin (Some item_order)],
             item_order + 1))
         (modeladmin_instances self) ([], 1)).

(** [GroupMenuItem(group, order, SubMenu(items))] (menus.py): the arguments
    it was built from. *)
Record GroupMenuItem := {
  item_group : t;
  group_item_order : Z;
  submenu : list ModelAdmin.ModelAdminMenuItem;
}.

(** Without members the method falls off its end and returns [None]. *)
Definition get_menu_item (self : t) : option GroupMenuItem :=
  if truthy (modeladmin_instances self) then
    let submenu := get_submenu_items self in
    Some {| item_group := self; group_item_order := get_menu_order self;
            submenu := submenu |}
  else None.

Section permissions.
Context `{Environment}.

(** A queryset built with [|] selects the rows either side selects: the
    running [qs] is the set of permissions selected so far. *)
Definition get_permissions_for_registration (self : t)
  : Result (gset Permission) :=
  for_each
    (λ qs instance,
       p ← ModelAdmin.get_permissions_for_registration instance;
       Ok (qs ∪ list_to_set p))
    (modeladmin_instances self) ∅.
End permissions.

Section explorer.
Context `{Explorer}.

Definition modify_explorer_page_queryset (self : t) (parent_page : string)
    (queryset : PageQuerySet) (request : ModelAdmin.HttpRequest)
  : Result PageQuerySet :=
  for_each
    (λ queryset instance,
       ModelAdmin.modify_explorer_page_queryset instance parent_page queryset request)
    (modeladmin_instances self) queryset.
End explorer.

End ModelAdminGroup.

(** ** class WagtailRegisterable and modeladmin_register *)

Module WagtailRegisterable.

(** The object a method of the base class runs on. *)
Inductive instance :=
| AdminInstance (self : ModelAdmin.t)
| GroupInstance (self : ModelAdminGroup.t).

(** The functions [register_with_wagtail] defines; each closes over
    [self]. *)
Inductive HookFn :=
| register_permissions (self : instance)
| register_admin_urls (self : instance)
| register_admin_menu_item (self : instance)
| construct_explorer_page_queryset (self : instance).

(** Both subclasses override the base method (which returns [False]). *)
Definition will_modify_explorer_page_queryset (self : instance) : Result bool :=
  match self with
  | AdminInstance a => ModelAdmin.will_modify_explorer_page_queryset a
  | GroupInstance g => ModelAdminGroup.will_modify_explorer_page_queryset g
  end.

Section explorer.
Context `{Explorer}.

(** What the registered [construct_explorer_page_queryset] function calls. *)
Definition modify_explorer_page_queryset (self : instance) (parent_page : string)
    (queryset : PageQuerySet) (request : ModelAdmin.HttpRequest)
  : Result PageQuerySet :=
  match self with
  | AdminInstance a =>
      ModelAdmin.modify_explorer_page_queryset a parent_page queryset request
  | GroupInstance g =>
      ModelAdminGroup.modify_explorer_page_queryset g parent_page queryset request
  end.
End explorer.

(** [@hooks.register(name)] appends the function to the registrations made
    so far; [add_to_settings_menu] is the class attribute of that name. *)
Definition register_with_wagtail (add_to_settings_menu : bool) (self : instance)
    (hooks : list (string * HookFn)) : Result unit * list (string * HookFn) :=
  let hooks := hooks ++ [("register_permissions", register_permissions self)] in
  let hooks := hooks ++ [("register_admin_urls", register_admin_urls self)] in
  let menu_hook :=
    if add_to_settings_menu then "register_settings_menu_item"
    else "register_admin_menu_item" in
  let hooks := hooks ++ [(menu_hook, register_admin_menu_item self)] in
  match will_modify_explorer_page_queryset self with
  | Ok true =>
      (Ok (), hooks ++ [("construct_explorer_page_queryset",
                          construct_explorer_page_queryset self)])
  | Ok false => (Ok (), hooks)
  | Raise e => (Raise e, hooks)
  end.

(** A class given to [modeladmin_register]. *)
Inductive registerable :=
| AdminClass (c : ModelAdmin.cls)
| GroupClass (c : ModelAdminGroup.cls).

(** [modeladmin_class()] *)
Definition new (modeladmin_class : registerable) : Run instance :=
  match modeladmin_class with
  | AdminClass c => self ← ModelAdmin.__init__ c None; mret (AdminInstance self)
  | GroupClass c => self ← ModelAdminGroup.__init__ c; mret (GroupInstance self)
  end.

(** The state it runs in: the helpers instantiated and the hooks
    registered so far. *)
Definition modeladmin_register (add_to_settings_menu : bool)
    (modeladmin_class : registerable)
    (helpers : list Helper) (hooks : list (string * HookFn))
  : Result unit * list Helper * list (string * HookFn) :=
  match new modeladmin_class helpers with
  | (Ok instance, helpers) =>
      let '(r, hooks) := register_with_wagtail add_to_settings_menu instance hooks in
      (r, helpers, hooks)
  | (Raise e, helpers) => (Raise e, helpers, hooks)
  end.

End WagtailRegisterable.

(** * Example classes *)

Module Examples.

Definition book_meta : Options := {|
  app_label := "tests";
  model_name := "book";
  verbose_name_plural := "books";
  get_fields := [
    {| name := "id"; concrete := true; is_relation := false;
       auto_created := true; related_model := None |};
    {| name := "title"; concrete := true; is_relation := false;
       auto_created := false; related_model := None |};
    {| name := "author"; concrete := true; is_relation := true;
       auto_created := false; related_model := Some (ClassNamed "tests.Author") |};
    {| name := "reviews"; concrete := false; is_relation := true;
       auto_created := true; related_model := Some (ClassNamed "tests.Review") |} ];
|}.

Definition event_page_meta : Options := {|
  app_label := "tests";
  model_name := "eventpage";
  verbose_name_plural := "event pages";
  get_fields := [];
|}.

Definition advert_meta : Options := {|
  app_label := "tests";
  model_name := "advert";
  verbose_name_plural := "adverts";
  get_fields := [];
|}.

(** [class Book(models.Model)], [class EventPage(Page)] and
    [class Advert(models.Model)] *)
Definition Book : ModelAttr := MClass (ModelClass "tests.Book" false book_meta).
Definition EventPage : ModelAttr :=
  MClass (ModelClass "tests.EventPage" true event_page_meta).
Definition Advert : ModelAttr :=
  MClass (ModelClass "tests.Advert" false advert_meta).

(** [class BookModelAdmin(ModelAdmin): model = Book] *)
Definition BookModelAdmin : ModelAdmin.cls := ModelAdmin.declare Book.

(** [class EventPageAdmin(ModelAdmin): model = EventPage] *)
Definition EventPageAdmin : ModelAdmin.cls := ModelAdmin.declare EventPage.

(** [class AdvertAdmin(ModelAdmin): model = Advert] *)
Definition AdvertAdmin : ModelAdmin.cls := ModelAdmin.declare Advert.

(** [model = 'tests.Book'], the dotted path instead of the class *)
Definition PathModelAdmin : ModelAdmin.cls :=
  ModelAdmin.declare (MStr "tests.Book").

(** [model] left unset *)
Definition UnsetModelAdmin : ModelAdmin.cls := ModelAdmin.declare MNone.

(** [model = Plain], a class that is not a Django model *)
Definition PlainModelAdmin : ModelAdmin.cls :=
  ModelAdmin.declare (MClass (PlainClass "tests.Plain")).

(** A [ModelAdmin] subclass for [Book] that sets [menu_order], the two
    inspect-view lists, [index_template_name] and [permission_helper_class],
    and enables the inspect view. *)
Definition book_admin (order : option Z) (fields exclude : list string)
    (index_template : string) (ph : option HelperClass) : ModelAdmin.cls := {|
  ModelAdmin.model := Book;
  ModelAdmin.menu_order := order;
  ModelAdmin.list_display := ["title"; "author"];
  ModelAdmin.list_display_add_buttons := None;
  ModelAdmin.inspect_view_fields := fields;
  ModelAdmin.inspect_view_fields_exclude := exclude;
  ModelAdmin.inspect_view_enabled := true;
  ModelAdmin.index_template_name := index_template;
  ModelAdmin.create_template_name := "";
  ModelAdmin.edit_template_name := "";
  ModelAdmin.inspect_template_name := "";
  ModelAdmin.delete_template_name := "";
  ModelAdmin.choose_parent_template_name := "";
  ModelAdmin.permission_helper_class := ph;
  ModelAdmin.url_helper_class := None;
  ModelAdmin.button_helper_class := None;
  ModelAdmin.exclude_from_explorer := false;
|}.

(** [menu_order = 000] *)
Definition FirstPlaceAdmin : ModelAdmin.cls := book_admin (Some 0) [] [] "" None.

(** [inspect_view_fields = ['title', 'author']] together with
    [inspect_view_fields_exclude = ['title']] *)
Definition ExplicitFieldsAdmin : ModelAdmin.cls :=
  book_admin None ["title"; "author"] ["title"] "" None.

(** [inspect_view_fields_exclude = ['author']], a template override and a
    custom permission helper *)
Definition CustomBookAdmin : ModelAdmin.cls :=
  book_admin (Some 200) [] ["author"] "tests/book_index.html"
    (Some (CustomHelper "tests.BookPermissionHelper")).

(** [list_display = ()] *)
Definition NoColumnsAdmin : ModelAdmin.cls := {|
  ModelAdmin.model := Book;
  ModelAdmin.menu_order := None;
  ModelAdmin.list_display := [];
  ModelAdmin.list_display_add_buttons := None;
  ModelAdmin.inspect_view_fields := [];
  ModelAdmin.inspect_view_fields_exclude := [];
  ModelAdmin.inspect_view_enabled := false;
  ModelAdmin.index_template_name := "";
  ModelAdmin.create_template_name := "";
  ModelAdmin.edit_template_name := "";
  ModelAdmin.inspect_template_name := "";
  ModelAdmin.delete_template_name := "";
  ModelAdmin.choose_parent_template_name := "";
  ModelAdmin.permission_helper_class := None;
  ModelAdmin.url_helper_class := None;
  ModelAdmin.button_helper_class := None;
  ModelAdmin.exclude_from_explorer := false;
|}.

(** [class LibraryGroup(ModelAdminGroup):
       items = (CustomBookAdmin, EventPageAdmin)] *)
Definition LibraryGroup : ModelAdminGroup.cls := {|
  ModelAdminGroup.__name__ := "LibraryGroup";
  ModelAdminGroup.items := [CustomBookAdmin; EventPageAdmin];
  ModelAdminGroup.menu_order := Some 0;
|}.

(** The instance [cls()] of a class whose construction succeeds. *)
Definition construct (c : ModelAdmin.cls) : ModelAdmin.t :=
  match ModelAdmin.__init__ c None [] with
  | (Ok self, _) => self
  | (Raise _, _) => {| ModelAdmin.klass := c; ModelAdmin.__dict__ := ∅ |}
  end.

Definition construct_group (gc : ModelAdminGroup.cls) : ModelAdminGroup.t :=
  match ModelAdminGroup.__init__ gc [] with
  | (Ok group, _) => group
  | (Raise _, _) =>
      {| ModelAdminGroup.klass := gc; ModelAdminGroup.modeladmin_instances := [] |}
  end.

(** The labels of the example models are ASCII. *)
Definition builtins : Builtins := {|
  str_lower := ascii_lower;
  str_title := ascii_title;
|}.

(** [class Misconfigured(ModelAdmin): model = models.Model], the base class
    in place of a model *)
Definition BaseModelAdmin : ModelAdmin.cls := ModelAdmin.declare (MClass BaseModel).

(** [model = 5] *)
Definition NumberModelAdmin : ModelAdmin.cls := ModelAdmin.declare (MObject true).

(** Stand-ins for the imported helpers; [Advert] is registered as a
    snippet. *)
Definition env : Environment := {|
  get_action_url_pattern h action := "^modeladmin/" +:+ action +:+ "/$";
  get_action_url_name h action := "modeladmin_" +:+ action;
  get_all_model_permissions h := ["add"; "change"; "delete"];
  SNIPPET_MODELS := [ModelClass "tests.Advert" false advert_meta];
  get_rendition_url image spec := "/media/" +:+ image +:+ "." +:+ spec;
  flatatt attrs :=
    match attrs !! "src" with
    | Some (HStr src) => " src=" +:+ src
    | _ => ""
    end;
|}.

(** [class HiddenEventPageAdmin(ModelAdmin): model = EventPage;
       exclude_from_explorer = True; inspect_view_enabled = True] *)
Definition HiddenEventPageAdmin : ModelAdmin.cls := {|
  ModelAdmin.model := EventPage;
  ModelAdmin.menu_order := Some 300;
  ModelAdmin.list_display := ["title"];
  ModelAdmin.list_display_add_buttons := None;
  ModelAdmin.inspect_view_fields := [];
  ModelAdmin.inspect_view_fields_exclude := [];
  ModelAdmin.inspect_view_enabled := true;
  ModelAdmin.index_template_name := "";
  ModelAdmin.create_template_name := "";
  ModelAdmin.edit_template_name := "";
  ModelAdmin.inspect_template_name := "";
  ModelAdmin.delete_template_name := "";
  ModelAdmin.choose_parent_template_name := "";
  ModelAdmin.permission_helper_class := None;
  ModelAdmin.url_helper_class := None;
  ModelAdmin.button_helper_class := None;
  ModelAdmin.exclude_from_explorer := true;
|}.

(** A group that hides one of its page models from the explorer. *)
Definition EventsGroup : ModelAdminGroup.cls := {|
  ModelAdminGroup.__name__ := "EventsGroup";
  ModelAdminGroup.items := [CustomBookAdmin; HiddenEventPageAdmin; EventPageAdmin];
  ModelAdminGroup.menu_order := None;
|}.

(** A group of a page model and a snippet. *)
Definition ContentGroup : ModelAdminGroup.cls := {|
  ModelAdminGroup.__name__ := "ContentGroup";
  ModelAdminGroup.items := [EventPageAdmin; AdvertAdmin];
  ModelAdminGroup.menu_order := None;
|}.

(** A group with an item whose [model] is unset. *)
Definition BrokenGroup : ModelAdminGroup.cls := {|
  ModelAdminGroup.__name__ := "BrokenGroup";
  ModelAdminGroup.items := [BookModelAdmin; UnsetModelAdmin];
  ModelAdminGroup.menu_order := None;
|}.

(** A group without items. *)
Definition EmptyGroup : ModelAdminGroup.cls := {|
  ModelAdminGroup.__name__ := "EmptyGroup";
  ModelAdminGroup.items := [];
  ModelAdminGroup.menu_order := None;
|}.

(** A stand-in for the explorer: a queryset is the list of the pages'
    model names, and [not_type] drops those of the given model. *)
Definition explorer_env : Explorer := {|
  PageQuerySet := list string;
  not_type queryset m :=
    match m with
    | MClass (ModelClass qualname _ _) =>
        List.filter (λ page, negb (String.eqb page qualname)) queryset
    | _ => queryset
    end;
|}.

(** The pages an explorer listing starts from. *)
Definition explorer_pages : @PageQuerySet explorer_env :=
  ["tests.EventPage"; "tests.HomePage"].

End Examples.

(** * Vocabulary of the properties *)

Section vocabulary.
Import ModelAdmin.

(** What the spec calls a valid data-model reference. *)
Definition valid_django_model (m : ModelAttr) : bool :=
  match m with
  | MClass (ModelClass _ _ _) => true
  | _ => false
  end.

(** The class a helper getter resolves to, given the override attribute. *)
Definition resolve (override : option HelperClass) (pg : bool)
    (page_specific generic : HelperClass) : HelperClass :=
  match override with
  | Some c => c
  | None => if pg then page_specific else generic
  end.

Definition built_permission_helper (c : cls) (pg : bool) : Helper := {|
  helper_class :=
    resolve (permission_helper_class c) pg PagePermissionHelper PermissionHelper;
  helper_model := model c;
  helper_inspect_view_enabled := Some (inspect_view_enabled c) |}.

Definition built_url_helper (c : cls) (pg : bool) : Helper := {|
  helper_class := resolve (url_helper_class c) pg PageAdminURLHelper AdminURLHelper;
  helper_model := model c;
  helper_inspect_view_enabled := None |}.

(** The object [__init__] leaves behind for a model class. *)
Definition built (c : cls) (parent : option string) (pg : bool) (o : Options)
  : t := {|
  klass := c;
  __dict__ :=
    <["url_helper" := AHelper (built_url_helper c pg)]>
    (<["permission_helper" := AHelper (built_permission_helper c pg)]>
    (<["parent" := AParent parent]>
    (<["is_pagemodel" := ABool pg]>
    (<["opts" := AOpts o]> ∅)))) |}.

(** A getter resolves to the override when there is one, and otherwise to
    the page-specific class exactly when [pg] holds. *)
Definition resolves (got : Result HelperClass) (override : option HelperClass)
    (pg : bool) (page_specific generic : HelperClass) : Prop :=
  match override with
  | Some k => got = Ok k
  | None => got = Ok (if pg then page_specific else generic)
  end.

(** The test the loop of [get_inspect_view_fields] applies to a field. *)
Definition listed (exclude : list string) (f : Field) : bool :=
  negb (bool_decide (name f ∈ exclude)) &&
  (concrete f &&
   (negb (is_relation f) || (negb (auto_created f) && truthy (related_model f)))).

(** The fallback list as the spec documents it. *)
Definition documented_templates (app model action : string) : list string :=
  [ "admin/" +:+ app +:+ "/" +:+ model +:+ "/" +:+ action +:+ ".html";
    "admin/" +:+ app +:+ "/" +:+ action +:+ ".html";
    "admin/" +:+ action +:+ ".html" ].

(** A template getter returns the override when it is a non-empty name, and
    otherwise the three names under [modeladmin/], most specific first, with
    the app label and the model name as [str.lower()] returns them. *)
Definition resolves_template `{Builtins} (got : Result Template)
    (override : string) (o : Options) (action : string) : Prop :=
  if truthy override then got = Ok (TName override)
  else got = Ok (TList
    [ "modeladmin/" +:+ str_lower (app_label o) +:+ "/" +:+
        str_lower (model_name o) +:+ "/" +:+ action +:+ ".html";
      "modeladmin/" +:+ str_lower (app_label o) +:+ "/" +:+ action +:+ ".html";
      "modeladmin/" +:+ action +:+ ".html" ]).

(** The number of routes a class registers: the four standard ones, the
    inspect route when it is enabled, [choose_parent] for a page model. *)
Definition route_count (c : cls) : nat :=
  4 + (if inspect_view_enabled c then 1 else 0) +
  match issubclass (model c) Page with
  | Ok true => 1
  | _ => 0
  end.

(** A class takes its pages out of the explorer: its model is a page model
    and it sets [exclude_from_explorer]. *)
Definition hidden_from_explorer (c : cls) : bool :=
  match issubclass (model c) Page with
  | Ok pg => pg && exclude_from_explorer c
  | Raise _ => false
  end.

(** The names of the hooks every registration adds, in order. *)
Definition standard_hooks (add_to_settings_menu : bool) : list string :=
  [ "register_permissions"; "register_admin_urls";
    if add_to_settings_menu then "register_settings_menu_item"
    else "register_admin_menu_item" ].
End vocabulary.

(** * Properties *)

(** ** Construction *)

Section construction.
Import ModelAdmin.

Lemma init_model_class c parent log qn pg o :
  model c = MClass (ModelClass qn pg o) →
  __init__ c parent log =
    (Ok (built c parent pg o),
     log ++ [built_permission_helper c pg; built_url_helper c pg]).
Proof.
  intros Hm. unfold __init__, built, built_permission_helper, built_url_helper.
  rewrite Hm.
  unfold mbind, Run_bind, lift, raise, mret, Run_ret, instantiate; simpl.
  unfold get_permission_helper_class, get_url_helper_class, is_pagemodel,
    getattr, setattr, resolve; simpl.
  destruct (permission_helper_class c) as [phc|];
    destruct (url_helper_class c) as [uhc|]; destruct pg; simpl.
  all: repeat (rewrite ?lookup_insert_ne by done; rewrite ?lookup_insert_eq; simpl).
  all: by rewrite <- (List.app_assoc log).
Qed.

Lemma init_model_none c parent log :
  model c = MNone → __init__ c parent log = (Raise ImproperlyConfigured, log).
Proof. intros Hm. unfold __init__. by rewrite Hm. Qed.

Lemma init_model_str c parent log s :
  model c = MStr s →
  __init__ c parent log =
    (Raise (if truthy s then TypeError else ImproperlyConfigured), log).
Proof. intros Hm. unfold __init__. rewrite Hm. by destruct s. Qed.

Lemma init_model_plain c parent log qn :
  model c = MClass (PlainClass qn) →
  __init__ c parent log = (Raise ImproperlyConfigured, log).
Proof. intros Hm. unfold __init__. by rewrite Hm. Qed.

Lemma init_model_object c parent log truth :
  model c = MObject truth →
  __init__ c parent log =
    (Raise (if truth then TypeError else ImproperlyConfigured), log).
Proof. intros Hm. unfold __init__. rewrite Hm. by destruct truth. Qed.

Lemma init_model_base c parent log :
  model c = MClass BaseModel →
  __init__ c parent log = (Raise AttributeError, log).
Proof. intros Hm. unfold __init__. by rewrite Hm. Qed.

(** Only a model class gets through [__init__], and the object it leaves
    is [built]. *)
Lemma init_ok_inv c parent log self log' :
  __init__ c parent log = (Ok self, log') →
  ∃ qn pg o,
    model c = MClass (ModelClass qn pg o) ∧
    self = built c parent pg o ∧
    log' = log ++ [built_permission_helper c pg; built_url_helper c pg].
Proof.
  destruct (model c) as [|s|[qn|qn pg o|]|truth] eqn:Hm.
  - by rewrite (init_model_none _ _ _ Hm).
  - rewrite (init_model_str _ _ _ _ Hm). by destruct (truthy s).
  - by rewrite (init_model_plain _ _ _ _ Hm).
  - rewrite (init_model_class _ _ _ _ _ _ Hm). intros [= <- <-]. eauto 6.
  - by rewrite (init_model_base _ _ _ Hm).
  - rewrite (init_model_object _ _ _ _ Hm). by destruct truth.
Qed.

Lemma built_is_pagemodel c parent pg o :
  is_pagemodel (built c parent pg o) = Ok pg.
Proof.
  unfold is_pagemodel, getattr, built; simpl.
  rewrite !lookup_insert_ne by done. by rewrite lookup_insert_eq.
Qed.

Lemma built_opts c parent pg o : opts (built c parent pg o) = Ok o.
Proof.
  unfold opts, getattr, built; simpl.
  rewrite !lookup_insert_ne by done. by rewrite lookup_insert_eq.
Qed.

Lemma built_permission_helper_attr c parent pg o :
  permission_helper (built c parent pg o) = Ok (built_permission_helper c pg).
Proof.
  unfold permission_helper, getattr, built; simpl.
  rewrite !lookup_insert_ne by done. by rewrite lookup_insert_eq.
Qed.

Lemma built_url_helper_attr c parent pg o :
  url_helper (built c parent pg o) = Ok (built_url_helper c pg).
Proof.
  unfold url_helper, getattr, built; simpl. by rewrite lookup_insert_eq.
Qed.

(** The helper instances stored on a constructed object are the two that
    [__init__] assigns. *)
Lemma built_helpers c parent pg o attr h :
  __dict__ (built c parent pg o) !! attr = Some (AHelper h) →
  (attr = "permission_helper" ∧ h = built_permission_helper c pg) ∨
  (attr = "url_helper" ∧ h = built_url_helper c pg).
Proof.
  unfold built; simpl. intros Hl.
  repeat (apply lookup_insert_Some in Hl as [[<- Hv]|[_ Hl]];
          [ try discriminate Hv; injection Hv as <-; auto | ]).
  by rewrite lookup_empty in Hl.
Qed.

(** Where the guard of [__init__] works. When [model] is false in a boolean
    context (it is [None], the default, or an empty value) or is a class
    that does not derive from Django's [Model], [__init__] raises
    [ImproperlyConfigured], and no helper has been instantiated by then: the
    list of instantiated helpers is the one it started from. *)
Theorem init_rejects_invalid_model c parent log :
  truthy (model c) = false ∨ issubclass (model c) Model = Ok false →
  __init__ c parent log = (Raise ImproperlyConfigured, log).
Proof.
  destruct (model c) as [|s|[qn|qn pg o|]|truth] eqn:Hm; intros [Ht|Hs];
    try discriminate.
  - by apply init_model_none.
  - rewrite (init_model_str _ _ _ _ Hm).
    change (truthy (MStr s)) with (truthy s) in Ht. by rewrite Ht.
  - by eapply init_model_plain.
  - rewrite (init_model_object _ _ _ _ Hm).
    change (truthy (MObject truth)) with truth in Ht. by rewrite Ht.
Qed.

(** C2, as amended. When [model] is a Django model class, [__init__]
    succeeds, instantiates two helpers, of the classes the getters resolve
    to, and stores them as [permission_helper] and [url_helper]; these are
    the only helper instances on the constructed object (no button helper
    is instantiated). *)
Theorem init_accepts_valid_model c parent log :
  valid_django_model (model c) = true →
  ∃ self ph uh,
    __init__ c parent log = (Ok self, log ++ [ph; uh]) ∧
    permission_helper self = Ok ph ∧
    url_helper self = Ok uh ∧
    get_permission_helper_class self = Ok (helper_class ph) ∧
    get_url_helper_class self = Ok (helper_class uh) ∧
    ∀ attr h, __dict__ self !! attr = Some (AHelper h) →
      (attr = "permission_helper" ∧ h = ph) ∨ (attr = "url_helper" ∧ h = uh).
Proof.
  destruct (model c) as [|s|[qn|qn pg o|]|truth] eqn:Hm; try discriminate. intros _.
  exists (built c parent pg o), (built_permission_helper c pg),
    (built_url_helper c pg).
  split; [by eapply init_model_class|].
  split; [apply built_permission_helper_attr|].
  split; [apply built_url_helper_attr|].
  unfold get_permission_helper_class, get_url_helper_class.
  rewrite built_is_pagemodel. simpl.
  split; [by destruct (permission_helper_class c), pg|].
  split; [by destruct (url_helper_class c), pg|].
  apply built_helpers.
Qed.

(** C7. On a constructed instance each helper-class getter returns the
    override attribute when it is set; otherwise the page-specific class
    when the model derives from [Page] and the generic class when it does
    not. *)
Theorem helper_class_resolution c parent log self log' :
  __init__ c parent log = (Ok self, log') →
  ∃ pg, issubclass (model c) Page = Ok pg ∧
    resolves (get_permission_helper_class self) (permission_helper_class c)
      pg PagePermissionHelper PermissionHelper ∧
    resolves (get_url_helper_class self) (url_helper_class c)
      pg PageAdminURLHelper AdminURLHelper ∧
    resolves (get_button_helper_class self) (button_helper_class c)
      pg PageButtonHelper ButtonHelper.
Proof.
  intros (qn & pg & o & Hm & -> & _)%init_ok_inv. exists pg.
  split; [by rewrite Hm|].
  unfold resolves, get_permission_helper_class, get_url_helper_class,
    get_button_helper_class.
  rewrite built_is_pagemodel. simpl.
  by destruct (permission_helper_class c), (url_helper_class c),
    (button_helper_class c), pg.
Qed.
End construction.

(** ** Inspect-view fields *)

Section inspect_view.
Import ModelAdmin.

Lemma found_fields_loop exclude fields found_fields :
  fold_left
    (λ found_fields f,
       if negb (bool_decide (name f ∈ exclude)) then
         if concrete f &&
            (negb (is_relation f) ||
             (negb (auto_created f) && truthy (related_model f)))
         then found_fields ++ [name f]
         else found_fields
       else found_fields)
    fields found_fields
  = found_fields ++ map name (List.filter (listed exclude) fields).
Proof.
  revert found_fields.
  induction fields as [|f fields IH]; intros found_fields; simpl.
  - by rewrite app_nil_r.
  - rewrite IH. unfold listed at 2.
    destruct (negb (bool_decide (name f ∈ exclude))); simpl; [|done].
    destruct (concrete f &&
      (negb (is_relation f) || negb (auto_created f) && truthy (related_model f)));
      simpl; [|done].
    by rewrite <- List.app_assoc.
Qed.

Lemma listed_not_excluded exclude fields n :
  n ∈ exclude → n ∉ map name (List.filter (listed exclude) fields).
Proof.
  intros Hex Hin. apply list_elem_of_In, in_map_iff in Hin as (f & <- & Hf).
  apply filter_In in Hf as [_ Hl]. unfold listed in Hl.
  apply andb_prop in Hl as [Hl _]. apply negb_true_iff in Hl.
  by apply bool_decide_eq_false in Hl.
Qed.

(** C3, as amended. On a constructed instance [get_inspect_view_fields]
    returns a list. When [inspect_view_fields] is empty the list is derived
    from the model's fields and holds no name listed in
    [inspect_view_fields_exclude]; when it is populated the list is
    [inspect_view_fields] itself, to which the exclusion is not applied. *)
Theorem inspect_view_fields_exclusion c parent log self log' :
  __init__ c parent log = (Ok self, log') →
  ∃ fields, get_inspect_view_fields self = Ok fields ∧
    (inspect_view_fields c = [] →
       ∀ n, n ∈ inspect_view_fields_exclude c → n ∉ fields) ∧
    (inspect_view_fields c ≠ [] → fields = inspect_view_fields c).
Proof.
  intros (qn & pg & o & Hm & -> & _)%init_ok_inv.
  unfold get_inspect_view_fields. simpl klass.
  destruct (inspect_view_fields c) as [|n0 rest] eqn:Hf; simpl.
  - rewrite Hm. simpl. eexists. split; [done|]. split; [|done].
    intros _ n Hn. rewrite found_fields_loop. simpl.
    by apply listed_not_excluded.
  - eexists. split; [done|]. by split.
Qed.
End inspect_view.

(** ** Menu order and list display *)

Section attributes.
Import ModelAdmin.

(** C9. When [list_display_add_buttons] is unset,
    [get_list_display_add_buttons] returns the first element of
    [get_list_display], and fails with [IndexError] when that is empty. *)
Theorem list_display_add_buttons_default self request :
  list_display_add_buttons (klass self) = None →
  get_list_display_add_buttons self request =
    match get_list_display self request with
    | first :: _ => Ok first
    | [] => Raise IndexError
    end.
Proof.
  intros Hunset. unfold get_list_display_add_buttons. rewrite Hunset.
  unfold getitem. by destruct (get_list_display self request).
Qed.
End attributes.

(** ** Template names *)

Section templates.
Import ModelAdmin.
Context `{Builtins}.

Lemma built_get_templates c parent pg o action :
  get_templates (built c parent pg o) action =
    Ok [ "modeladmin/" +:+ str_lower (app_label o) +:+ "/" +:+
           str_lower (model_name o) +:+ "/" +:+ action +:+ ".html";
         "modeladmin/" +:+ str_lower (app_label o) +:+ "/" +:+ action +:+ ".html";
         "modeladmin/" +:+ action +:+ ".html" ].
Proof. unfold get_templates. by rewrite built_opts. Qed.

(** Whatever [str.lower()] returns, the fallback list is not the one under
    [admin/]: its first name starts with [modeladmin/]. *)
Lemma fallback_templates_under_modeladmin c parent pg o app model_label action :
  get_templates (built c parent pg o) action ≠
    Ok (documented_templates app model_label action).
Proof. rewrite built_get_templates. by intros [=]. Qed.

(** C5, as amended. On a constructed instance, whose model has [_meta] [o],
    each of the six template getters returns the per-action override when it
    is set, and otherwise the list
    [modeladmin/<app>/<model>/<action>.html], [modeladmin/<app>/<action>.html],
    [modeladmin/<action>.html], with the app label and the model name as
    [str.lower()] returns them. *)
Theorem template_resolution c parent log self log' :
  __init__ c parent log = (Ok self, log') →
  ∃ o, get_meta (model c) = Ok o ∧
    resolves_template (get_index_template self) (index_template_name c) o "index" ∧
    resolves_template (get_create_template self) (create_template_name c) o "create" ∧
    resolves_template (get_edit_template self) (edit_template_name c) o "edit" ∧
    resolves_template (get_inspect_template self) (inspect_template_name c) o "inspect" ∧
    resolves_template (get_delete_template self) (delete_template_name c) o "delete" ∧
    resolves_template (get_choose_parent_template self)
      (choose_parent_template_name c) o "choose_parent".
Proof.
  intros (qn & pg & o & Hm & -> & _)%init_ok_inv. exists o.
  split; [by rewrite Hm|].
  unfold resolves_template, get_index_template, get_create_template,
    get_edit_template, get_inspect_template, get_delete_template,
    get_choose_parent_template.
  rewrite !built_get_templates. simpl klass.
  repeat split; by case_match.
Qed.
End templates.

(** ** Registration *)

Section registration.
Import ModelAdmin.
Context `{Environment}.


Lemma built_action_url c parent pg o action view_name :
  action_url (built c parent pg o) action view_name =
    Ok {| regex := get_action_url_pattern (built_url_helper c pg) action;
          view := {| im_self := built c parent pg o; im_func := view_name |};
          url_name := get_action_url_name (built_url_helper c pg) action |}.
Proof. unfold action_url. by rewrite built_url_helper_attr. Qed.

(** A constructed instance always yields its URL tuple: four routes, one
    more with the inspect view enabled, one more for a page model. *)
Lemma built_admin_urls c parent pg o :
  ∃ urls, ModelAdmin.get_admin_urls_for_registration (built c parent pg o) = Ok urls ∧
    length urls =
      (4 + (if inspect_view_enabled c then 1 else 0) + (if pg then 1 else 0))%nat.
Proof.
  unfold ModelAdmin.get_admin_urls_for_registration.
  rewrite !built_action_url, built_is_pagemodel. simpl.
  destruct (inspect_view_enabled c), pg; simpl; eexists; split; done.
Qed.

Lemma group_urls_loop instances : ∀ tuples urls,
  Forall2 (λ instance u, ModelAdmin.get_admin_urls_for_registration instance = Ok u)
    instances tuples →
  for_each
    (λ urls instance,
       u ← ModelAdmin.get_admin_urls_for_registration instance; Ok (urls ++ u))
    instances urls
  = Ok (urls ++ concat tuples).
Proof.
  induction instances as [|instance instances IH]; intros tuples urls Hall.
  - apply Forall2_nil_inv_l in Hall as ->. simpl. by rewrite app_nil_r.
  - apply Forall2_cons_inv_l in Hall as (u & tuples' & Hu & Hall & ->).
    simpl. rewrite Hu. simpl. rewrite (IH _ _ Hall).
    by rewrite <- List.app_assoc.
Qed.

(** The loop of [ModelAdminGroup.__init__] appends one constructed instance
    per item, in item order. *)
Lemma instantiate_items_inv parent items : ∀ instances log result log',
  ModelAdminGroup.instantiate_items parent items instances log = (Ok result, log') →
  ∃ new, result = instances ++ new ∧
    Forall2 (λ c instance, ∃ pg o, instance = built c (Some parent) pg o) items new.
Proof.
  induction items as [|c items IH]; intros instances log result log'; simpl.
  - intros [= <- <-]. exists []. by rewrite app_nil_r.
  - unfold mbind, Run_bind.
    destruct (__init__ c (Some parent) log) as [[inst|e] log1] eqn:Hinit; [|done].
    apply init_ok_inv in Hinit as (qn & pg & o & _ & -> & _).
    intros (new & -> & Hall)%IH.
    exists (built c (Some parent) pg o :: new).
    split; [by rewrite <- List.app_assoc|]. constructor; eauto.
Qed.

(** C6. For a constructed group, every member yields its URL tuple, and
    the group's [get_admin_urls_for_registration] returns the concatenation
    of those tuples in member order; there is one member per item. *)
Theorem group_admin_urls_concat gc log group log' :
  ModelAdminGroup.__init__ gc log = (Ok group, log') →
  ∃ tuples,
    Forall2 (λ instance u, ModelAdmin.get_admin_urls_for_registration instance = Ok u)
      (ModelAdminGroup.modeladmin_instances group) tuples ∧
    length tuples = length (ModelAdminGroup.items gc) ∧
    ModelAdminGroup.get_admin_urls_for_registration group = Ok (concat tuples).
Proof.
  unfold ModelAdminGroup.__init__, mbind, Run_bind.
  destruct (ModelAdminGroup.instantiate_items _ _ _ _) as [[insts|e] log1] eqn:Hloop;
    [|done].
  intros [= <- <-]. simpl.
  apply instantiate_items_inv in Hloop as (new & -> & Hall). simpl.
  assert (∃ tuples,
    Forall2 (λ instance u, ModelAdmin.get_admin_urls_for_registration instance = Ok u)
      new tuples) as [tuples Htuples].
  { clear -Hall. induction Hall as [|c inst items new (pg & o & ->) _ [tuples IH]].
    - by exists [].
    - destruct (built_admin_urls c (Some (ModelAdminGroup.__name__ gc)) pg o)
        as (u & Hu & _).
      exists (u :: tuples). by constructor. }
  exists tuples. split; [done|]. split.
  - rewrite <- (Forall2_length _ _ _ Htuples). symmetry. by eapply Forall2_length.
  - unfold ModelAdminGroup.get_admin_urls_for_registration. simpl.
    by rewrite (group_urls_loop _ _ _ Htuples).
Qed.
End registration.

(** ** Menu order *)

Section menu_order.

Lemma menu_order_unset self :
  ModelAdmin.menu_order (ModelAdmin.klass self) = None →
  ModelAdmin.get_menu_order self = 999.
Proof. unfold ModelAdmin.get_menu_order. by intros ->. Qed.

Lemma menu_order_nonzero self z :
  ModelAdmin.menu_order (ModelAdmin.klass self) = Some z → z ≠ 0 →
  ModelAdmin.get_menu_order self = z.
Proof.
  unfold ModelAdmin.get_menu_order. intros -> Hz. simpl.
  unfold truthy, Z_truthy. by destruct (Z.eqb_spec z 0).
Qed.

(** C4, at [menu_order = 0]. A [ModelAdmin] and a [ModelAdminGroup] whose
    [menu_order] is set to 0 both answer 999, not 0. *)
Theorem menu_order_zero_is_999 :
  ModelAdmin.menu_order Examples.FirstPlaceAdmin = Some 0 ∧
  fst (ModelAdmin.__init__ Examples.FirstPlaceAdmin None []) =
    Ok (Examples.construct Examples.FirstPlaceAdmin) ∧
  ModelAdmin.get_menu_order (Examples.construct Examples.FirstPlaceAdmin) = 999 ∧
  ModelAdminGroup.menu_order Examples.LibraryGroup = Some 0 ∧
  fst (ModelAdminGroup.__init__ Examples.LibraryGroup []) =
    Ok (Examples.construct_group Examples.LibraryGroup) ∧
  ModelAdminGroup.get_menu_order (Examples.construct_group Examples.LibraryGroup) = 999.
Proof. repeat split. Qed.
End menu_order.

(** ** Thumbnails *)

Section thumbnails.
Context `{Environment}.

Lemma admin_thumb_returns self obj :
  ∃ html, ThumbnailMixin.admin_thumb self obj = Ok html.
Proof.
  unfold ThumbnailMixin.admin_thumb, ThumbnailMixin.getattr. simpl.
  destruct (default None (obj !! ThumbnailMixin.thumb_image_field_name self)).
  - eauto.
  - destruct (truthy (ThumbnailMixin.thumb_default self)); eauto.
Qed.

(** C8, at an object without the named field. [admin_thumb] returns for
    every mixin and every object, so it never raises [ImproperlyConfigured];
    for the mixin's defaults and an object with no [image] attribute it
    returns the empty string. *)
Theorem admin_thumb_missing_field :
  (∀ self obj, ThumbnailMixin.admin_thumb self obj ≠ Raise ImproperlyConfigured) ∧
  (∅ : gmap string (option Image)) !! "image" = None ∧
  ThumbnailMixin.admin_thumb ThumbnailMixin.defaults ∅ = Ok "".
Proof.
  split; [|done].
  intros self obj. by destruct (admin_thumb_returns self obj) as [html ->].
Qed.
End thumbnails.

(** ** The properties at the example classes *)

Section examples.
Import ModelAdmin Examples.
Local Existing Instance Examples.env.
Local Existing Instance Examples.builtins.

(** C1, at a model given by its dotted path. The value is not a valid
    model, and it is true and not a class: [issubclass] raises [TypeError]
    before the guard can raise [ImproperlyConfigured], which is what
    [__init__] answers for [None], for an empty value and for a class that
    is not a model. *)
Lemma init_path_model_raises_type_error :
  valid_django_model (model PathModelAdmin) = false ∧
  __init__ PathModelAdmin None [] = (Raise TypeError, []) ∧
  fst (__init__ PathModelAdmin None []) ≠ Raise ImproperlyConfigured.
Proof. repeat split. discriminate. Qed.

(** [init_rejects_invalid_model] at a class that is not a model. *)
Lemma init_rejects_invalid_model_witness :
  (truthy (model PlainModelAdmin) = false ∨
   issubclass (model PlainModelAdmin) Model = Ok false) ∧
  __init__ PlainModelAdmin None [] = (Raise ImproperlyConfigured, []).
Proof.
  split; [right; reflexivity|].
  apply (init_rejects_invalid_model PlainModelAdmin None []). right; reflexivity.
Defined.

(** C2, as stated, fails: constructing [BookModelAdmin] succeeds and
    instantiates two helpers, a [PermissionHelper] and an [AdminURLHelper];
    no attribute of the object holds any other helper, and it has no
    [button_helper]. *)
Lemma init_builds_no_button_helper :
  valid_django_model (model BookModelAdmin) = true ∧
  fst (__init__ BookModelAdmin None []) = Ok (construct BookModelAdmin) ∧
  helper_class <$> snd (__init__ BookModelAdmin None []) =
    [PermissionHelper; AdminURLHelper] ∧
  getattr (construct BookModelAdmin) "button_helper" = Raise AttributeError ∧
  ∀ attr h, __dict__ (construct BookModelAdmin) !! attr = Some (AHelper h) →
    helper_class h = PermissionHelper ∨ helper_class h = AdminURLHelper.
Proof.
  split; [done|]. split; [done|]. split; [done|]. split; [done|].
  intros attr h Hl.
  change (construct BookModelAdmin)
    with (built BookModelAdmin None false book_meta) in Hl.
  apply built_helpers in Hl as [[_ ->]|[_ ->]]; auto.
Qed.

(** [init_accepts_valid_model] at a page model. *)
Lemma init_accepts_valid_model_witness :
  valid_django_model (model EventPageAdmin) = true ∧
  ∃ self ph uh,
    __init__ EventPageAdmin None [] = (Ok self, [] ++ [ph; uh]) ∧
    permission_helper self = Ok ph ∧
    url_helper self = Ok uh ∧
    get_permission_helper_class self = Ok (helper_class ph) ∧
    get_url_helper_class self = Ok (helper_class uh) ∧
    ∀ attr h, __dict__ self !! attr = Some (AHelper h) →
      (attr = "permission_helper" ∧ h = ph) ∨ (attr = "url_helper" ∧ h = uh).
Proof.
  split; [reflexivity|].
  apply (init_accepts_valid_model EventPageAdmin None []). reflexivity.
Defined.

(** C3, as stated, fails: with [inspect_view_fields] populated, a name that
    is also in [inspect_view_fields_exclude] is returned all the same. *)
Lemma explicit_inspect_fields_keep_excluded :
  fst (__init__ ExplicitFieldsAdmin None []) = Ok (construct ExplicitFieldsAdmin) ∧
  "title" ∈ inspect_view_fields_exclude ExplicitFieldsAdmin ∧
  get_inspect_view_fields (construct ExplicitFieldsAdmin) = Ok ["title"; "author"] ∧
  "title" ∈ ["title"; "author"].
Proof. split; [done|]. split; [|split; [done|]]; apply list_elem_of_here. Qed.

(** [inspect_view_fields_exclusion] at a class that excludes [author]. *)
Lemma inspect_view_fields_exclusion_witness :
  __init__ CustomBookAdmin None [] =
    (Ok (construct CustomBookAdmin), snd (__init__ CustomBookAdmin None [])) ∧
  ∃ fields, get_inspect_view_fields (construct CustomBookAdmin) = Ok fields ∧
    (inspect_view_fields CustomBookAdmin = [] →
       ∀ n, n ∈ inspect_view_fields_exclude CustomBookAdmin → n ∉ fields) ∧
    (inspect_view_fields CustomBookAdmin ≠ [] →
       fields = inspect_view_fields CustomBookAdmin).
Proof.
  split; [reflexivity|].
  apply (inspect_view_fields_exclusion CustomBookAdmin None []
           (construct CustomBookAdmin) (snd (__init__ CustomBookAdmin None []))).
  reflexivity.
Defined.

(** The derived list at [CustomBookAdmin]: [author] is excluded by name and
    [reviews] as an auto-created reverse relation. *)
Example custom_book_admin_inspect_fields :
  get_inspect_view_fields (construct CustomBookAdmin) = Ok ["id"; "title"].
Proof. reflexivity. Qed.

(** C5, as stated, fails: the fallback names start with [modeladmin/], not
    with [admin/]. *)
Lemma index_templates_not_as_documented :
  fst (__init__ BookModelAdmin None []) = Ok (construct BookModelAdmin) ∧
  index_template_name BookModelAdmin = "" ∧
  get_index_template (construct BookModelAdmin) =
    Ok (TList [ "modeladmin/tests/book/index.html";
                "modeladmin/tests/index.html";
                "modeladmin/index.html" ]) ∧
  get_index_template (construct BookModelAdmin) ≠
    Ok (TList (documented_templates "tests" "book" "index")).
Proof. repeat split. discriminate. Qed.

(** [template_resolution] at a class that overrides the index template. *)
Lemma template_resolution_witness :
  __init__ CustomBookAdmin None [] =
    (Ok (construct CustomBookAdmin), snd (__init__ CustomBookAdmin None [])) ∧
  ∃ o, get_meta (model CustomBookAdmin) = Ok o ∧
    resolves_template (get_index_template (construct CustomBookAdmin))
      (index_template_name CustomBookAdmin) o "index" ∧
    resolves_template (get_create_template (construct CustomBookAdmin))
      (create_template_name CustomBookAdmin) o "create" ∧
    resolves_template (get_edit_template (construct CustomBookAdmin))
      (edit_template_name CustomBookAdmin) o "edit" ∧
    resolves_template (get_inspect_template (construct CustomBookAdmin))
      (inspect_template_name CustomBookAdmin) o "inspect" ∧
    resolves_template (get_delete_template (construct CustomBookAdmin))
      (delete_template_name CustomBookAdmin) o "delete" ∧
    resolves_template (get_choose_parent_template (construct CustomBookAdmin))
      (choose_parent_template_name CustomBookAdmin) o "choose_parent".
Proof.
  split; [reflexivity|].
  apply (template_resolution CustomBookAdmin None []
           (construct CustomBookAdmin) (snd (__init__ CustomBookAdmin None []))).
  reflexivity.
Defined.

Example custom_book_admin_templates :
  get_index_template (construct CustomBookAdmin) = Ok (TName "tests/book_index.html") ∧
  get_edit_template (construct CustomBookAdmin) =
    Ok (TList [ "modeladmin/tests/book/edit.html";
                "modeladmin/tests/edit.html";
                "modeladmin/edit.html" ]).
Proof. split; reflexivity. Qed.

(** [group_admin_urls_concat] at a group of two. *)
Lemma group_admin_urls_concat_witness :
  ModelAdminGroup.__init__ LibraryGroup [] =
    (Ok (construct_group LibraryGroup), snd (ModelAdminGroup.__init__ LibraryGroup [])) ∧
  ∃ tuples,
    Forall2 (λ instance u, ModelAdmin.get_admin_urls_for_registration instance = Ok u)
      (ModelAdminGroup.modeladmin_instances (construct_group LibraryGroup)) tuples ∧
    length tuples = length (ModelAdminGroup.items LibraryGroup) ∧
    ModelAdminGroup.get_admin_urls_for_registration (construct_group LibraryGroup) =
      Ok (concat tuples).
Proof.
  split; [reflexivity|].
  apply (group_admin_urls_concat LibraryGroup [] (construct_group LibraryGroup)
           (snd (ModelAdminGroup.__init__ LibraryGroup []))).
  reflexivity.
Defined.

(** The group's routes at [LibraryGroup]: five for the book admin (the
    inspect view is enabled), then five for the page admin (it adds
    [choose_parent]). *)
Example library_group_url_names :
  (fmap (M := list) url_name) <$>
    ModelAdminGroup.get_admin_urls_for_registration (construct_group LibraryGroup) =
  Ok [ "modeladmin_index"; "modeladmin_create"; "modeladmin_edit";
       "modeladmin_delete"; "modeladmin_inspect";
       "modeladmin_index"; "modeladmin_create"; "modeladmin_edit";
       "modeladmin_delete"; "modeladmin_choose_parent" ].
Proof. reflexivity. Qed.

(** [helper_class_resolution] at a class with a custom permission helper. *)
Lemma helper_class_resolution_witness :
  __init__ CustomBookAdmin None [] =
    (Ok (construct CustomBookAdmin), snd (__init__ CustomBookAdmin None [])) ∧
  ∃ pg, issubclass (model CustomBookAdmin) Page = Ok pg ∧
    resolves (get_permission_helper_class (construct CustomBookAdmin))
      (permission_helper_class CustomBookAdmin)
      pg PagePermissionHelper PermissionHelper ∧
    resolves (get_url_helper_class (construct CustomBookAdmin))
      (url_helper_class CustomBookAdmin)
      pg PageAdminURLHelper AdminURLHelper ∧
    resolves (get_button_helper_class (construct CustomBookAdmin))
      (button_helper_class CustomBookAdmin)
      pg PageButtonHelper ButtonHelper.
Proof.
  split; [reflexivity|].
  apply (helper_class_resolution CustomBookAdmin None []
           (construct CustomBookAdmin) (snd (__init__ CustomBookAdmin None []))).
  reflexivity.
Defined.

Example helper_classes_at_examples :
  get_permission_helper_class (construct CustomBookAdmin) =
    Ok (CustomHelper "tests.BookPermissionHelper") ∧
  get_button_helper_class (construct CustomBookAdmin) = Ok ButtonHelper ∧
  get_url_helper_class (construct EventPageAdmin) = Ok PageAdminURLHelper.
Proof. repeat split. Qed.

(** [list_display_add_buttons_default] at a two-column list display. *)
Lemma list_display_add_buttons_default_witness :
  list_display_add_buttons (klass (construct CustomBookAdmin)) = None ∧
  get_list_display_add_buttons (construct CustomBookAdmin) {| path := "/admin/" |} =
    match get_list_display (construct CustomBookAdmin) {| path := "/admin/" |} with
    | first :: _ => Ok first
    | [] => Raise IndexError
    end.
Proof.
  split; [reflexivity|].
  apply (list_display_add_buttons_default (construct CustomBookAdmin)
           {| path := "/admin/" |}).
  reflexivity.
Defined.


Example permissions_at_examples :
  get_permissions_for_registration (construct CustomBookAdmin) =
    Ok ["add"; "change"; "delete"] ∧
  get_permissions_for_registration (construct EventPageAdmin) = Ok [] ∧
  get_permissions_for_registration (construct AdvertAdmin) = Ok [].
Proof. repeat split. Qed.

Example unset_model_is_rejected :
  __init__ UnsetModelAdmin None [] = (Raise ImproperlyConfigured, []).
Proof. reflexivity. Qed.

Example list_display_add_buttons_at_examples :
  get_list_display_add_buttons (construct CustomBookAdmin) {| path := "/admin/" |} =
    Ok "title" ∧
  get_list_display_add_buttons (construct NoColumnsAdmin) {| path := "/admin/" |} =
    Raise IndexError.
Proof. split; reflexivity. Qed.

(** With an image on the object the tag carries its rendition; with [None]
    there and no default, the result is empty. *)
Example admin_thumb_at_examples :
  ThumbnailMixin.admin_thumb ThumbnailMixin.defaults {[ "image" := Some "cover" ]} =
    Ok "<img src=/media/cover.fill-100x100>" ∧
  ThumbnailMixin.admin_thumb ThumbnailMixin.defaults {[ "image" := None ]} = Ok "".
Proof. split; reflexivity. Qed.
End examples.

(** * Further properties *)

(** ** Construction, in full *)

Section construction_cases.
Import ModelAdmin.

(** X1. Constructing a [ModelAdmin] succeeds exactly when [model] is a
    Django model class. *)
Theorem init_succeeds_iff_django_model c parent log :
  (∃ self log', __init__ c parent log = (Ok self, log')) ↔
  valid_django_model (model c) = true.
Proof.
  split.
  - intros (self & log' & (qn & pg & o & Hm & _)%init_ok_inv). by rewrite Hm.
  - destruct (model c) as [|s|[qn|qn pg o|]|truth] eqn:Hm; try discriminate.
    intros _. rewrite (init_model_class _ parent log _ _ _ Hm). eauto.
Qed.

(** X2. A construction that fails has instantiated no helper. It fails
    with [ImproperlyConfigured] only when [model] is false or a class that
    does not derive from [Model]; with [TypeError] only when [model] is true
    and not a class, so that [issubclass] rejects it; with [AttributeError]
    only when [model] derives from [Model] and has no [_meta], which is
    [django.db.models.Model] itself; and with no other error. *)
Theorem init_failure_cases c parent log e log' :
  __init__ c parent log = (Raise e, log') →
  log' = log ∧
  match e with
  | ImproperlyConfigured =>
      truthy (model c) = false ∨ issubclass (model c) Model = Ok false
  | TypeError =>
      truthy (model c) = true ∧ issubclass (model c) Model = Raise TypeError
  | AttributeError =>
      model c = MClass BaseModel ∧
      issubclass (model c) Model = Ok true ∧
      get_meta (model c) = Raise AttributeError
  | IndexError => False
  end.
Proof.
  destruct (model c) as [|s|[qn|qn pg o|]|truth] eqn:Hm.
  - rewrite (init_model_none _ _ _ Hm). intros [= <- <-]. split; [done|by left].
  - rewrite (init_model_str _ _ _ _ Hm). intros [= <- <-]. split; [done|].
    destruct s as [|a s]; simpl; [by left|done].
  - rewrite (init_model_plain _ _ _ _ Hm). intros [= <- <-].
    split; [done|by right].
  - by rewrite (init_model_class _ _ _ _ _ _ Hm).
  - rewrite (init_model_base _ _ _ Hm). by intros [= <- <-].
  - rewrite (init_model_object _ _ _ _ Hm). intros [= <- <-]. split; [done|].
    destruct truth; simpl; [done|by left].
Qed.
End construction_cases.

(** ** Group construction *)

Section group_construction.
Import ModelAdmin.

(** The loop of [ModelAdminGroup.__init__], when it completes: every item
    is a model class, its instance is the one [__init__] builds with the
    group as parent, and each item added its two helpers. *)
Lemma instantiate_items_ok parent items : ∀ instances log result log',
  ModelAdminGroup.instantiate_items parent items instances log = (Ok result, log') →
  ∃ new,
    result = instances ++ new ∧
    Forall2 (λ c instance, ∃ qn pg o,
               model c = MClass (ModelClass qn pg o) ∧
               instance = built c (Some parent) pg o) items new ∧
    length log' = (length log + 2 * length items)%nat.
Proof.
  induction items as [|c items IH]; intros instances log result log'; simpl.
  - intros [= <- <-]. exists []. rewrite app_nil_r. split; [done|].
    split; [constructor|lia].
  - unfold mbind, Run_bind.
    destruct (__init__ c (Some parent) log) as [[inst|e] log1] eqn:Hinit; [|done].
    apply init_ok_inv in Hinit as (qn & pg & o & Hm & -> & ->).
    intros (new & -> & Hall & Hlen)%IH.
    exists (built c (Some parent) pg o :: new).
    split; [by rewrite <- List.app_assoc|]. split; [constructor; eauto 6|].
    rewrite Hlen, length_app. simpl. lia.
Qed.

Lemma instantiate_items_valid parent items : ∀ instances log,
  Forall (λ c, valid_django_model (model c) = true) items →
  ∃ result log',
    ModelAdminGroup.instantiate_items parent items instances log = (Ok result, log').
Proof.
  induction items as [|c items IH]; intros instances log Hall; simpl.
  - eauto.
  - apply Forall_cons in Hall as [Hc Hall].
    destruct (model c) as [|s|[qn|qn pg o|]|truth] eqn:Hm; try discriminate.
    unfold mbind, Run_bind.
    rewrite (init_model_class _ _ _ _ _ _ Hm). by apply IH.
Qed.

(** X3. Constructing a group succeeds exactly when every class in [items]
    has a Django model class as its [model]. *)
Theorem group_init_succeeds_iff gc log :
  (∃ group log', ModelAdminGroup.__init__ gc log = (Ok group, log')) ↔
  Forall (λ c, valid_django_model (model c) = true) (ModelAdminGroup.items gc).
Proof.
  unfold ModelAdminGroup.__init__, mbind, Run_bind. split.
  - intros (group & log' & Hinit).
    destruct (ModelAdminGroup.instantiate_items _ _ _ _) as [[insts|e] log1] eqn:Hloop;
      [|done].
    apply instantiate_items_ok in Hloop as (new & _ & Hall & _).
    clear -Hall. induction Hall as [|c inst items new (qn & pg & o & Hm & _) _ IH].
    + constructor.
    + constructor; [by rewrite Hm|done].
  - intros Hall.
    destruct (instantiate_items_valid (ModelAdminGroup.__name__ gc) _ [] log Hall)
      as (result & log' & ->).
    eauto.
Qed.

(** X4. A constructed group has one member per item, in item order: the
    member is an instance of the item's class and its [parent] is the
    group. Construction instantiated two helpers per item. *)
Theorem group_init_members gc log group log' :
  ModelAdminGroup.__init__ gc log = (Ok group, log') →
  klass <$> ModelAdminGroup.modeladmin_instances group = ModelAdminGroup.items gc ∧
  Forall (λ instance,
            getattr instance "parent" =
              Ok (AParent (Some (ModelAdminGroup.__name__ gc))))
    (ModelAdminGroup.modeladmin_instances group) ∧
  length log' = (length log + 2 * length (ModelAdminGroup.items gc))%nat.
Proof.
  unfold ModelAdminGroup.__init__, mbind, Run_bind.
  destruct (ModelAdminGroup.instantiate_items _ _ _ _) as [[insts|e] log1] eqn:Hloop;
    [|done].
  intros [= <- <-]. simpl.
  apply instantiate_items_ok in Hloop as (new & -> & Hall & Hlen). simpl.
  split; [|split; [|done]].
  - clear -Hall. induction Hall as [|c inst items new (qn & pg & o & _ & ->) _ IH].
    + done.
    + rewrite fmap_cons. by f_equal.
  - clear -Hall. induction Hall as [|c inst items new (qn & pg & o & _ & ->) _ IH].
    + constructor.
    + constructor; [|done]. unfold getattr, built. simpl.
      rewrite !lookup_insert_ne by done. by rewrite lookup_insert_eq.
Qed.
End group_construction.

(** ** The derived inspect-view list *)

Section derived_fields.
Import ModelAdmin.

Lemma listed_sublist exclude fields :
  sublist (map name (List.filter (listed exclude) fields)) (map name fields).
Proof.
  induction fields as [|f fields IH]; simpl; [constructor|].
  destruct (listed exclude f); simpl; by constructor.
Qed.

(** X5. With [inspect_view_fields] empty, the list derived on a constructed
    instance keeps the order of the model's fields, and a name is in it
    exactly when it is the name of a field that is not excluded, is
    concrete, and is either no relation or a relation that is not
    auto-created and has a related model. *)
Theorem derived_inspect_view_fields c parent log self log' o :
  __init__ c parent log = (Ok self, log') →
  get_meta (model c) = Ok o →
  inspect_view_fields c = [] →
  ∃ fields, get_inspect_view_fields self = Ok fields ∧
    sublist fields (map name (get_fields o)) ∧
    ∀ n, n ∈ fields ↔
      ∃ f, f ∈ get_fields o ∧ name f = n ∧
        (n ∉ inspect_view_fields_exclude c) ∧
        concrete f = true ∧
        (is_relation f = false ∨
         (auto_created f = false ∧ related_model f ≠ None)).
Proof.
  intros (qn & pg & o' & Hm & -> & _)%init_ok_inv Hmeta Hempty.
  rewrite Hm in Hmeta. injection Hmeta as ->.
  unfold get_inspect_view_fields. simpl klass. rewrite Hempty, Hm. simpl.
  rewrite found_fields_loop. simpl. eexists. split; [done|].
  split; [apply listed_sublist|]. intros n.
  rewrite list_elem_of_In, in_map_iff. split.
  - intros (f & <- & [Hin Hl]%filter_In). exists f.
    split; [by apply list_elem_of_In|]. split; [done|].
    unfold listed in Hl.
    apply andb_prop in Hl as [Hex Hl]. apply andb_prop in Hl as [Hc Hl].
    apply negb_true_iff, bool_decide_eq_false in Hex.
    split; [done|]. split; [done|].
    apply orb_prop in Hl as [Hr|Hl].
    + left. by apply negb_true_iff.
    + right. apply andb_prop in Hl as [Ha Hrm].
      split; [by apply negb_true_iff|]. by destruct (related_model f).
  - intros (f & Hin & <- & Hex & Hc & Hrel). exists f. split; [done|].
    apply filter_In. split; [by apply list_elem_of_In|].
    unfold listed. rewrite Hc. simpl.
    apply andb_true_intro. split.
    + by apply negb_true_iff, bool_decide_eq_false.
    + destruct Hrel as [->|[-> Hrm]]; [done|].
      destruct (related_model f); [|done]. by rewrite orb_true_r.
Qed.
End derived_fields.

(** ** Routes *)

Section routes.
Import ModelAdmin.
Context `{Environment}.

(** X6. The routes of a constructed instance are, in this order, index,
    create, edit and delete, then inspect when the inspect view is
    enabled, then choose_parent when the model is a page model. The route
    of an action has the pattern and the name its URL helper gives for that
    action, and its view is the method of that action, bound to the
    instance. *)
Theorem admin_urls_routes c parent log self log' :
  __init__ c parent log = (Ok self, log') →
  ∃ pg uh,
    issubclass (model c) Page = Ok pg ∧
    url_helper self = Ok uh ∧
    get_admin_urls_for_registration self =
      Ok (map (λ '(action, view_name),
                 {| regex := get_action_url_pattern uh action;
                    view := {| im_self := self; im_func := view_name |};
                    url_name := get_action_url_name uh action |})
            ([ ("index", "index_view"); ("create", "create_view");
               ("edit", "edit_view"); ("delete", "delete_view") ] ++
             (if inspect_view_enabled c then [("inspect", "inspect_view")] else []) ++
             (if pg then [("choose_parent", "choose_parent_view")] else []))).
Proof.
  intros (qn & pg & o & Hm & -> & _)%init_ok_inv.
  exists pg, (built_url_helper c pg).
  split; [by rewrite Hm|]. split; [apply built_url_helper_attr|].
  unfold get_admin_urls_for_registration.
  rewrite !built_action_url, built_is_pagemodel. simpl.
  by destruct (inspect_view_enabled c), pg.
Qed.

(** X7. A constructed group registers as many routes as its items do
    together. *)
Theorem group_admin_urls_count gc log group log' :
  ModelAdminGroup.__init__ gc log = (Ok group, log') →
  ∃ urls, ModelAdminGroup.get_admin_urls_for_registration group = Ok urls ∧
    length urls = sum_list (route_count <$> ModelAdminGroup.items gc).
Proof.
  unfold ModelAdminGroup.__init__, mbind, Run_bind.
  destruct (ModelAdminGroup.instantiate_items _ _ _ _) as [[insts|e] log1] eqn:Hloop;
    [|done].
  intros [= <- <-].
  apply instantiate_items_ok in Hloop as (new & -> & Hall & _). simpl.
  unfold ModelAdminGroup.get_admin_urls_for_registration. simpl.
  assert (∃ tuples,
    Forall2 (λ instance u, get_admin_urls_for_registration instance = Ok u)
      new tuples ∧
    length (concat tuples) = sum_list (route_count <$> ModelAdminGroup.items gc))
    as (tuples & Htuples & Hlen).
  { clear -Hall.
    induction Hall as [|c inst items new (qn & pg & o & Hm & ->) _ (tuples & IH & Hlen)].
    - by exists [].
    - destruct (built_admin_urls c (Some (ModelAdminGroup.__name__ gc)) pg o)
        as (u & Hu & Hulen).
      exists (u :: tuples). split; [by constructor|].
      simpl. rewrite length_app, Hlen, Hulen. unfold route_count.
      rewrite Hm. simpl. by destruct pg. }
  exists (concat tuples). split; [|done].
  by rewrite (group_urls_loop _ _ _ Htuples).
Qed.
End routes.

(** ** Menu items *)

Section menu_items.
Import ModelAdmin.

Lemma explicit_order_used self (n : nat) :
  (1 ≤ n)%nat → item_order (get_menu_item self (Some (Z.of_nat n))) = Z.of_nat n.
Proof.
  intros Hn. unfold get_menu_item, or_else, truthy, Z_truthy. simpl.
  destruct (Z.eqb_spec (Z.of_nat n) 0); [lia|done].
Qed.

Lemma submenu_loop instances : ∀ menu_items (n : nat),
  (1 ≤ n)%nat →
  ∃ new,
    fst (fold_left
           (λ '(menu_items, item_order) modeladmin,
              (menu_items ++ [get_menu_item modeladmin (Some item_order)],
               item_order + 1))
           instances (menu_items, Z.of_nat n)) = menu_items ++ new ∧
    item_model_admin <$> new = instances ∧
    item_order <$> new = Z.of_nat <$> seq n (length instances).
Proof.
  induction instances as [|modeladmin instances IH]; intros menu_items n Hn; simpl.
  - exists []. by rewrite app_nil_r.
  - replace (Z.of_nat n + 1) with (Z.of_nat (S n)) by lia.
    destruct (IH (menu_items ++ [get_menu_item modeladmin (Some (Z.of_nat n))]) (S n))
      as (new & -> & Hself & Horder); [lia|].
    exists (get_menu_item modeladmin (Some (Z.of_nat n)) :: new).
    split; [by rewrite <- List.app_assoc|].
    rewrite !fmap_cons, Hself, Horder, explicit_order_used by done.
    done.
Qed.

Lemma submenu_items_numbered_length group :
  length (ModelAdminGroup.get_submenu_items group) =
    length (ModelAdminGroup.modeladmin_instances group).
Proof.
  unfold ModelAdminGroup.get_submenu_items.
  destruct (submenu_loop (ModelAdminGroup.modeladmin_instances group) [] 1)
    as (new & Hloop & Hself & _); [lia|].
  change (Z.of_nat 1) with 1 in Hloop. rewrite Hloop. simpl.
  by rewrite <- Hself, length_fmap.
Qed.

(** X8. The submenu of a group has one item per member, in member order,
    and the items are numbered 1, 2, ... whatever [menu_order] the members'
    classes set. *)
Theorem submenu_items_numbered group :
  item_model_admin <$> ModelAdminGroup.get_submenu_items group =
    ModelAdminGroup.modeladmin_instances group ∧
  item_order <$> ModelAdminGroup.get_submenu_items group =
    Z.of_nat <$> seq 1 (length (ModelAdminGroup.modeladmin_instances group)).
Proof.
  unfold ModelAdminGroup.get_submenu_items.
  destruct (submenu_loop (ModelAdminGroup.modeladmin_instances group) [] 1)
    as (new & Hloop & Hself & Horder); [lia|].
  change (Z.of_nat 1) with 1 in Hloop. by rewrite Hloop.
Qed.

(** X9. A constructed group without items has no menu item: [get_menu_item]
    returns [None]. With items it returns an item for the group itself, at
    the group's menu order, whose submenu has one entry per item. *)
Theorem group_menu_item_iff_items gc log group log' :
  ModelAdminGroup.__init__ gc log = (Ok group, log') →
  (ModelAdminGroup.items gc = [] → ModelAdminGroup.get_menu_item group = None) ∧
  (ModelAdminGroup.items gc ≠ [] →
     ∃ item, ModelAdminGroup.get_menu_item group = Some item ∧
       ModelAdminGroup.item_group item = group ∧
       ModelAdminGroup.group_item_order item = ModelAdminGroup.get_menu_order group ∧
       length (ModelAdminGroup.submenu item) = length (ModelAdminGroup.items gc)).
Proof.
  intros Hinit.
  assert (length (ModelAdminGroup.modeladmin_instances group) =
          length (ModelAdminGroup.items gc)) as Hlen.
  { revert Hinit. unfold ModelAdminGroup.__init__, mbind, Run_bind.
    destruct (ModelAdminGroup.instantiate_items _ _ _ _)
      as [[insts|e] log1] eqn:Hloop; [|done].
    intros [= <- <-]. simpl.
    apply instantiate_items_ok in Hloop as (new & -> & Hall & _). simpl.
    symmetry. by eapply Forall2_length. }
  unfold ModelAdminGroup.get_menu_item. split.
  - intros Hempty. rewrite Hempty in Hlen.
    by destruct (ModelAdminGroup.modeladmin_instances group).
  - intros Hitems.
    destruct (ModelAdminGroup.modeladmin_instances group) as [|i insts] eqn:Hinsts.
    { destruct (ModelAdminGroup.items gc); [done|discriminate Hlen]. }
    simpl. eexists. split; [done|]. simpl. split; [done|]. split; [done|].
    rewrite <- Hlen, <- Hinsts.
    by rewrite submenu_items_numbered_length.
Qed.
End menu_items.

(** ** Group permissions *)

Section group_permissions.
Import ModelAdmin.
Context `{Environment}.

Lemma built_permissions c parent pg o :
  ModelAdmin.get_permissions_for_registration (built c parent pg o) =
    Ok (if negb pg && negb (class_in (model c) SNIPPET_MODELS)
        then get_all_model_permissions (built_permission_helper c pg)
        else []).
Proof.
  unfold ModelAdmin.get_permissions_for_registration.
  rewrite built_is_pagemodel, built_permission_helper_attr. simpl.
  by destruct (negb pg && negb (class_in (model c) SNIPPET_MODELS)).
Qed.

Lemma group_permissions_loop instances : ∀ selected (qs : gset Permission),
  Forall2 (λ instance ps,
             ModelAdmin.get_permissions_for_registration instance = Ok ps)
    instances selected →
  for_each
    (λ qs instance,
       p ← ModelAdmin.get_permissions_for_registration instance;
       Ok (qs ∪ list_to_set p))
    instances qs
  = Ok (qs ∪ ⋃ (list_to_set <$> selected)).
Proof.
  induction instances as [|instance instances IH]; intros selected qs Hall.
  - apply Forall2_nil_inv_l in Hall as ->. simpl. by rewrite union_empty_r_L.
  - apply Forall2_cons_inv_l in Hall as (ps & selected' & Hps & Hall & ->).
    simpl. rewrite Hps. simpl. rewrite (IH _ _ Hall).
    f_equal. rewrite ?fmap_cons, ?union_list_cons. by rewrite (assoc_L (∪)).
Qed.

Lemma constructed_members_permissions parent items new :
  Forall2 (λ c instance, ∃ qn pg o,
             model c = MClass (ModelClass qn pg o) ∧
             instance = built c (Some parent) pg o) items new →
  ∃ selected,
    Forall2 (λ instance ps,
               ModelAdmin.get_permissions_for_registration instance = Ok ps)
      new selected ∧
    Forall2 (λ c ps,
               issubclass (model c) Page = Ok true ∨
               class_in (model c) SNIPPET_MODELS = true → ps = [])
      items selected.
Proof.
  induction 1 as [|c inst items new (qn & pg & o & Hm & ->) _ (selected & IH1 & IH2)].
  - exists []. split; constructor.
  - eexists (_ :: selected). split.
    + constructor; [apply built_permissions|done].
    + constructor; [|done]. rewrite Hm. simpl.
      intros [[= ->]| ->]; [done|]. by rewrite andb_false_r.
Qed.

(** X10. The permissions a constructed group registers are those its
    members register: a permission is selected exactly when some member's
    [get_permissions_for_registration] returns it. *)
Theorem group_permissions_union gc log group log' :
  ModelAdminGroup.__init__ gc log = (Ok group, log') →
  ∃ qs, ModelAdminGroup.get_permissions_for_registration group = Ok qs ∧
    ∀ p, p ∈ qs ↔
      ∃ instance ps,
        instance ∈ ModelAdminGroup.modeladmin_instances group ∧
        ModelAdmin.get_permissions_for_registration instance = Ok ps ∧
        p ∈ ps.
Proof.
  unfold ModelAdminGroup.__init__, mbind, Run_bind.
  destruct (ModelAdminGroup.instantiate_items _ _ _ _) as [[insts|e] log1] eqn:Hloop;
    [|done].
  intros [= <- <-].
  apply instantiate_items_ok in Hloop as (new & -> & Hall & _). simpl.
  apply constructed_members_permissions in Hall as (selected & Hsel & _).
  unfold ModelAdminGroup.get_permissions_for_registration. simpl.
  rewrite (group_permissions_loop _ _ _ Hsel). eexists. split; [done|].
  intros p. rewrite elem_of_union, elem_of_union_list. split.
  - intros [Hp|(X & (ps & -> & Hps)%list_elem_of_fmap & Hp)];
      [by apply not_elem_of_empty in Hp|].
    apply list_elem_of_lookup in Hps as [i Hi].
    destruct (Forall2_lookup_r _ _ _ _ _ Hsel Hi) as (instance & Hinst & Hcall).
    exists instance, ps. split; [by eapply list_elem_of_lookup_2|].
    split; [done|]. by apply elem_of_list_to_set in Hp.
  - intros (instance & ps & Hin & Hcall & Hp). right.
    apply list_elem_of_lookup in Hin as [i Hi].
    destruct (Forall2_lookup_l _ _ _ _ _ Hsel Hi) as (ps' & Hps' & Hcall').
    rewrite Hcall in Hcall'. injection Hcall' as <-.
    exists (list_to_set ps). split; [|by apply elem_of_list_to_set].
    apply list_elem_of_fmap. exists ps. split; [done|].
    by eapply list_elem_of_lookup_2.
Qed.

(** X11. A constructed group whose items are all for page models or for
    snippets registers no permission. *)
Theorem group_permissions_empty gc log group log' :
  ModelAdminGroup.__init__ gc log = (Ok group, log') →
  Forall (λ c, issubclass (model c) Page = Ok true ∨
               class_in (model c) SNIPPET_MODELS = true)
    (ModelAdminGroup.items gc) →
  ModelAdminGroup.get_permissions_for_registration group = Ok ∅.
Proof.
  unfold ModelAdminGroup.__init__, mbind, Run_bind.
  destruct (ModelAdminGroup.instantiate_items _ _ _ _) as [[insts|e] log1] eqn:Hloop;
    [|done].
  intros [= <- <-] Hitems.
  apply instantiate_items_ok in Hloop as (new & -> & Hall & _). simpl.
  apply constructed_members_permissions in Hall as (selected & Hsel & Hnone).
  unfold ModelAdminGroup.get_permissions_for_registration. simpl.
  rewrite (group_permissions_loop _ _ _ Hsel). f_equal.
  assert (Forall (λ ps, ps = []) selected) as Hempty.
  { clear -Hitems Hnone. induction Hnone as [|c ps items selected Hc _ IH].
    - constructor.
    - apply Forall_cons in Hitems as [Hpage Hitems]. constructor; auto. }
  rewrite union_empty_l_L.
  clear -Hempty. induction Hempty as [|ps selected -> _ IH]; [done|].
  rewrite ?fmap_cons, ?union_list_cons. simpl. by rewrite IH, union_empty_l_L.
Qed.
End group_permissions.

(** ** The explorer queryset *)

Section explorer.
Import ModelAdmin.
Context `{Explorer}.

Lemma built_will_modify c parent pg o :
  ModelAdmin.will_modify_explorer_page_queryset (built c parent pg o) =
    Ok (pg && exclude_from_explorer c).
Proof.
  unfold ModelAdmin.will_modify_explorer_page_queryset.
  by rewrite built_is_pagemodel.
Qed.

Lemma built_modify c parent pg o parent_page queryset request :
  ModelAdmin.modify_explorer_page_queryset (built c parent pg o)
    parent_page queryset request =
    Ok (if pg && exclude_from_explorer c then not_type queryset (model c)
        else queryset).
Proof.
  unfold ModelAdmin.modify_explorer_page_queryset.
  rewrite built_is_pagemodel. simpl.
  by destruct (pg && exclude_from_explorer c).
Qed.

Lemma constructed_members_will_modify parent items new :
  Forall2 (λ c instance, ∃ qn pg o,
             model c = MClass (ModelClass qn pg o) ∧
             instance = built c (Some parent) pg o) items new →
  ModelAdminGroup.any_will_modify new = Ok (existsb hidden_from_explorer items).
Proof.
  induction 1 as [|c inst items new (qn & pg & o & Hm & ->) _ IH]; simpl; [done|].
  rewrite built_will_modify. simpl. unfold hidden_from_explorer at 1.
  rewrite Hm. simpl. by destruct (pg && exclude_from_explorer c).
Qed.

(** X12. A constructed instance asks to modify the explorer queryset
    exactly when its model is a page model and its class sets
    [exclude_from_explorer]; the flag does nothing for other models. *)
Theorem will_modify_iff_hidden_page c parent log self log' :
  __init__ c parent log = (Ok self, log') →
  ∃ pg, issubclass (model c) Page = Ok pg ∧
    ModelAdmin.will_modify_explorer_page_queryset self =
      Ok (pg && exclude_from_explorer c).
Proof.
  intros (qn & pg & o & Hm & -> & _)%init_ok_inv. exists pg.
  split; [by rewrite Hm|apply built_will_modify].
Qed.

(** X13. A constructed group asks to modify the explorer queryset exactly
    when one of its items does. *)
Theorem group_will_modify_iff_some_item gc log group log' :
  ModelAdminGroup.__init__ gc log = (Ok group, log') →
  ModelAdminGroup.will_modify_explorer_page_queryset group =
    Ok (existsb hidden_from_explorer (ModelAdminGroup.items gc)).
Proof.
  unfold ModelAdminGroup.__init__, mbind, Run_bind.
  destruct (ModelAdminGroup.instantiate_items _ _ _ _) as [[insts|e] log1] eqn:Hloop;
    [|done].
  intros [= <- <-].
  apply instantiate_items_ok in Hloop as (new & -> & Hall & _). simpl.
  by eapply constructed_members_will_modify.
Qed.

Lemma admin_modify_identity self parent_page queryset request :
  ModelAdmin.will_modify_explorer_page_queryset self = Ok false →
  ModelAdmin.modify_explorer_page_queryset self parent_page queryset request =
    Ok queryset.
Proof.
  unfold ModelAdmin.will_modify_explorer_page_queryset,
    ModelAdmin.modify_explorer_page_queryset.
  destruct (is_pagemodel self) as [pg|e]; simpl; [|done].
  by intros [= ->].
Qed.

(** X14. Whatever the object, when [will_modify_explorer_page_queryset]
    answers [False], [modify_explorer_page_queryset] returns the queryset
    it was given: leaving the hook unregistered loses nothing. *)
Theorem modify_identity_unless_will_modify self parent_page queryset request :
  WagtailRegisterable.will_modify_explorer_page_queryset self = Ok false →
  WagtailRegisterable.modify_explorer_page_queryset self parent_page queryset request
    = Ok queryset.
Proof.
  destruct self as [a|g]; simpl; [apply admin_modify_identity|].
  unfold ModelAdminGroup.will_modify_explorer_page_queryset,
    ModelAdminGroup.modify_explorer_page_queryset.
  induction (ModelAdminGroup.modeladmin_instances g) as [|instance instances IH];
    simpl; [done|].
  destruct (ModelAdmin.will_modify_explorer_page_queryset instance)
    as [[|]|e] eqn:Hwill; simpl; try done.
  intros Hrest. rewrite (admin_modify_identity _ _ _ _ Hwill).
  unfold mbind, Result_bind. by apply IH.
Qed.

(** X15. On a constructed group [modify_explorer_page_queryset] applies
    [not_type(model)] once for every item that hides its pages, in item
    order, and nothing else. *)
Theorem group_modify_composition gc log group log' parent_page queryset request :
  ModelAdminGroup.__init__ gc log = (Ok group, log') →
  ModelAdminGroup.modify_explorer_page_queryset group parent_page queryset request =
    Ok (fold_left
          (λ queryset c,
             if hidden_from_explorer c then not_type queryset (model c)
             else queryset)
          (ModelAdminGroup.items gc) queryset).
Proof.
  unfold ModelAdminGroup.__init__, mbind, Run_bind.
  destruct (ModelAdminGroup.instantiate_items _ _ _ _) as [[insts|e] log1] eqn:Hloop;
    [|done].
  intros [= <- <-].
  apply instantiate_items_ok in Hloop as (new & -> & Hall & _). simpl.
  unfold ModelAdminGroup.modify_explorer_page_queryset. simpl.
  revert queryset.
  induction Hall as [|c inst items new (qn & pg & o & Hm & ->) _ IH];
    intros queryset; simpl; [done|].
  assert (hidden_from_explorer c = pg && exclude_from_explorer c) as Hhidden
    by (unfold hidden_from_explorer; by rewrite Hm).
  rewrite built_modify. unfold mbind, Result_bind. by rewrite IH, Hhidden.
Qed.
End explorer.

(** ** Registration *)

Section registering.
Import ModelAdmin WagtailRegisterable.

Lemma register_adds add_to_settings_menu self hooks :
  ∃ r added,
    register_with_wagtail add_to_settings_menu self hooks = (r, hooks ++ added) ∧
    match WagtailRegisterable.will_modify_explorer_page_queryset self with
    | Ok true =>
        r = Ok () ∧
        fst <$> added =
          standard_hooks add_to_settings_menu ++ ["construct_explorer_page_queryset"]
    | Ok false => r = Ok () ∧ fst <$> added = standard_hooks add_to_settings_menu
    | Raise e => r = Raise e
    end.
Proof.
  unfold register_with_wagtail.
  destruct (WagtailRegisterable.will_modify_explorer_page_queryset self)
    as [[|]|e]; eexists _, _; rewrite <- !List.app_assoc; simpl;
    (split; [reflexivity|]); by destruct add_to_settings_menu.
Qed.

(** X16. Registering a [ModelAdmin] class whose [model] is a Django model
    class succeeds: it instantiates the two helpers and adds, after the
    hooks already registered, [register_permissions], [register_admin_urls]
    and one menu hook ([register_settings_menu_item] when
    [add_to_settings_menu] is set, [register_admin_menu_item] otherwise),
    followed by [construct_explorer_page_queryset] exactly when the class
    hides a page model from the explorer. *)
Theorem modeladmin_register_admin add_to_settings_menu c helpers hooks :
  valid_django_model (model c) = true →
  ∃ helpers' added,
    modeladmin_register add_to_settings_menu (AdminClass c) helpers hooks =
      (Ok (), helpers', hooks ++ added) ∧
    length helpers' = (length helpers + 2)%nat ∧
    fst <$> added =
      standard_hooks add_to_settings_menu ++
      (if hidden_from_explorer c then ["construct_explorer_page_queryset"] else []).
Proof.
  destruct (model c) as [|s|[qn|qn pg o|]|truth] eqn:Hm; try discriminate. intros _.
  unfold modeladmin_register, new, mbind, Run_bind.
  rewrite (init_model_class _ _ _ _ _ _ Hm). simpl.
  destruct (register_adds add_to_settings_menu
              (AdminInstance (built c None pg o)) hooks) as (r & added & -> & Hr).
  simpl in Hr. rewrite built_will_modify in Hr.
  unfold hidden_from_explorer. rewrite Hm. simpl.
  exists (helpers ++ [built_permission_helper c pg; built_url_helper c pg]), added.
  rewrite length_app. simpl.
  destruct (pg && exclude_from_explorer c); destruct Hr as [-> ->];
    rewrite ?app_nil_r; done.
Qed.

(** X17. Registering a group class whose items all have a Django model
    class succeeds: it instantiates two helpers per item and adds the three
    standard hooks, followed by [construct_explorer_page_queryset] exactly
    when one of the items hides a page model from the explorer. *)
Theorem modeladmin_register_group add_to_settings_menu gc helpers hooks :
  Forall (λ c, valid_django_model (model c) = true) (ModelAdminGroup.items gc) →
  ∃ helpers' added,
    modeladmin_register add_to_settings_menu (GroupClass gc) helpers hooks =
      (Ok (), helpers', hooks ++ added) ∧
    length helpers' = (length helpers + 2 * length (ModelAdminGroup.items gc))%nat ∧
    fst <$> added =
      standard_hooks add_to_settings_menu ++
      (if existsb hidden_from_explorer (ModelAdminGroup.items gc)
       then ["construct_explorer_page_queryset"] else []).
Proof.
  intros Hvalid.
  destruct (instantiate_items_valid (ModelAdminGroup.__name__ gc) _ [] helpers Hvalid)
    as (insts & helpers' & Hloop).
  unfold modeladmin_register, new, ModelAdminGroup.__init__, mbind, Run_bind.
  rewrite Hloop. simpl.
  apply instantiate_items_ok in Hloop as (new & -> & Hall & Hlen). simpl.
  destruct (register_adds add_to_settings_menu
              (GroupInstance
                 {| ModelAdminGroup.klass := gc;
                    ModelAdminGroup.modeladmin_instances := new |}) hooks)
    as (r & added & -> & Hr).
  simpl in Hr.
  unfold ModelAdminGroup.will_modify_explorer_page_queryset in Hr. simpl in Hr.
  rewrite (constructed_members_will_modify _ _ _ Hall) in Hr.
  exists helpers', added.
  destruct (existsb hidden_from_explorer (ModelAdminGroup.items gc));
    destruct Hr as [-> ->]; rewrite ?app_nil_r; done.
Qed.

(** X18. Registration fails only where construction fails, and then no
    hook has been registered. *)
Theorem modeladmin_register_failure add_to_settings_menu modeladmin_class
    helpers hooks e helpers' hooks' :
  modeladmin_register add_to_settings_menu modeladmin_class helpers hooks =
    (Raise e, helpers', hooks') →
  new modeladmin_class helpers = (Raise e, helpers') ∧ hooks' = hooks.
Proof.
  unfold modeladmin_register.
  destruct (new modeladmin_class helpers) as [[self|e'] helpers1] eqn:Hnew.
  - destruct (register_adds add_to_settings_menu self hooks)
      as (r & added & -> & Hr).
    intros [= -> <- _]. exfalso.
    destruct modeladmin_class as [c|gc]; unfold new, mbind, Run_bind in Hnew.
    + destruct (__init__ c None helpers) as [[a|e1] h1] eqn:Hinit; [|done].
      injection Hnew as <- <-.
      apply init_ok_inv in Hinit as (qn & pg & o & _ & -> & _).
      simpl in Hr. rewrite built_will_modify in Hr.
      by destruct (pg && exclude_from_explorer c); destruct Hr.
    + unfold ModelAdminGroup.__init__, mbind, Run_bind in Hnew.
      destruct (ModelAdminGroup.instantiate_items _ _ _ _)
        as [[insts|e1] h1] eqn:Hloop; [|done].
      injection Hnew as <- <-.
      apply instantiate_items_ok in Hloop as (new & -> & Hall & _).
      simpl in Hr.
      unfold ModelAdminGroup.will_modify_explorer_page_queryset in Hr. simpl in Hr.
      rewrite (constructed_members_will_modify _ _ _ Hall) in Hr.
      by destruct (existsb hidden_from_explorer (ModelAdminGroup.items gc));
        destruct Hr.
  - by intros [= <- <- <-].
Qed.
End registering.

(** ** Thumbnails, further *)

Section thumbnail_cases.
Import ThumbnailMixin.
Context `{Environment}.

(** X19. [admin_thumb] returns the empty string exactly when the object
    has no image under the named field (the attribute is missing or
    [None]) and no true [thumb_default] is set. In every other case it
    returns an [<img ...>] tag: without an image and with a true
    [thumb_default], the tag whose [src] is that default; with an image,
    the tag whose [src] is the URL of the image's rendition. *)
Theorem admin_thumb_cases self obj :
  (admin_thumb self obj = Ok "" ↔
     (obj !! thumb_image_field_name self = None ∨
      obj !! thumb_image_field_name self = Some None) ∧
     truthy (thumb_default self) = false) ∧
  ((obj !! thumb_image_field_name self = None ∨
    obj !! thumb_image_field_name self = Some None) →
   truthy (thumb_default self) = true →
   admin_thumb self obj =
     Ok ("<img" +:+
         flatatt {[ "src" := html_of (thumb_default self);
                    "width" := HInt (thumb_image_width self);
                    "class" := HStr (thumb_classname self) ]} +:+ ">")) ∧
  (∀ image, obj !! thumb_image_field_name self = Some (Some image) →
   admin_thumb self obj =
     Ok ("<img" +:+
         flatatt {[ "src" := HStr (get_rendition_url image
                                     (thumb_image_filter_spec self));
                    "width" := HInt (thumb_image_width self);
                    "class" := HStr (thumb_classname self) ]} +:+ ">")).
Proof.
  unfold admin_thumb, ThumbnailMixin.getattr. simpl.
  destruct (obj !! thumb_image_field_name self) as [[image|]|]; simpl.
  - split; [|split].
    + split; [discriminate|]. by intros [[?|?] _].
    + by intros [?|?].
    + intros image' [= <-]. by rewrite insert_insert_eq.
  - destruct (truthy (thumb_default self)); simpl.
    + split; [|split; done]. split; [discriminate|]. by intros [_ ?].
    + split; [|split; done]. split; [auto|done].
  - destruct (truthy (thumb_default self)); simpl.
    + split; [|split; done]. split; [discriminate|]. by intros [_ ?].
    + split; [|split; done]. split; [auto|done].
Qed.

(** X20. When the object has an image under the named field, the tag is
    built from three attributes: [src], the URL of the image's rendition
    for the mixin's filter spec, [width] and [class]. The default source is
    replaced, so [thumb_default] has no part in the result. *)
Theorem admin_thumb_image_replaces_default self obj image :
  obj !! thumb_image_field_name self = Some (Some image) →
  admin_thumb self obj =
    Ok ("<img" +:+
        flatatt {[ "src" := HStr (get_rendition_url image (thumb_image_filter_spec self));
                   "width" := HInt (thumb_image_width self);
                   "class" := HStr (thumb_classname self) ]} +:+ ">").
Proof.
  intros Himage. unfold admin_thumb, ThumbnailMixin.getattr. rewrite Himage. simpl.
  by rewrite insert_insert_eq.
Qed.
End thumbnail_cases.

(** ** The group's label *)

Section group_label.
Import ModelAdmin.
Context `{Builtins}.

(** X21. The app label of a constructed group comes from its first item
    alone: it is what [str.title()] returns for the app label of that
    item's model, and the empty string for a group without items. *)
Theorem group_app_label_from_first_item gc log group log' :
  ModelAdminGroup.__init__ gc log = (Ok group, log') →
  match ModelAdminGroup.items gc with
  | [] => ModelAdminGroup.get_app_label_from_subitems group = Ok ""
  | c :: _ =>
      ∃ o, get_meta (model c) = Ok o ∧
        ModelAdminGroup.get_app_label_from_subitems group =
          Ok (str_title (app_label o))
  end.
Proof.
  unfold ModelAdminGroup.__init__, mbind, Run_bind.
  destruct (ModelAdminGroup.instantiate_items _ _ _ _) as [[insts|e] log1] eqn:Hloop;
    [|done].
  intros [= <- <-].
  apply instantiate_items_ok in Hloop as (new & -> & Hall & _). simpl.
  unfold ModelAdminGroup.get_app_label_from_subitems. simpl.
  destruct Hall as [|c inst items new (qn & pg & o & Hm & ->) _]; [done|].
  exists o. rewrite Hm. split; [done|]. by rewrite built_opts.
Qed.
End group_label.

(** ** The further properties at the example classes *)

Section further_examples.
Import ModelAdmin Examples.
Local Existing Instance Examples.env.
Local Existing Instance Examples.builtins.
Local Existing Instance Examples.explorer_env.

(** [init_failure_cases] at the base class [Model]. *)
Lemma init_failure_cases_witness :
  __init__ BaseModelAdmin None [] = (Raise AttributeError, []) ∧
  ([] : list Helper) = [] ∧
  model BaseModelAdmin = MClass BaseModel ∧
  issubclass (model BaseModelAdmin) Model = Ok true ∧
  get_meta (model BaseModelAdmin) = Raise AttributeError.
Proof.
  split; [reflexivity|].
  apply (init_failure_cases BaseModelAdmin None [] AttributeError []). reflexivity.
Defined.

Example init_failures_at_examples :
  __init__ UnsetModelAdmin None [] = (Raise ImproperlyConfigured, []) ∧
  __init__ PlainModelAdmin None [] = (Raise ImproperlyConfigured, []) ∧
  __init__ PathModelAdmin None [] = (Raise TypeError, []) ∧
  __init__ NumberModelAdmin None [] = (Raise TypeError, []) ∧
  __init__ BaseModelAdmin None [] = (Raise AttributeError, []).
Proof. repeat split. Qed.

Example group_init_at_examples :
  fst (ModelAdminGroup.__init__ BrokenGroup []) = Raise ImproperlyConfigured ∧
  length (snd (ModelAdminGroup.__init__ BrokenGroup [])) = 2%nat ∧
  fst (ModelAdminGroup.__init__ EmptyGroup []) = Ok (construct_group EmptyGroup).
Proof. repeat split. Qed.

(** [group_init_members] at a group of three. *)
Lemma group_init_members_witness :
  ModelAdminGroup.__init__ EventsGroup [] =
    (Ok (construct_group EventsGroup), snd (ModelAdminGroup.__init__ EventsGroup [])) ∧
  klass <$> ModelAdminGroup.modeladmin_instances (construct_group EventsGroup) =
    ModelAdminGroup.items EventsGroup ∧
  Forall (λ instance,
            getattr instance "parent" =
              Ok (AParent (Some (ModelAdminGroup.__name__ EventsGroup))))
    (ModelAdminGroup.modeladmin_instances (construct_group EventsGroup)) ∧
  length (snd (ModelAdminGroup.__init__ EventsGroup [])) =
    (length ([] : list Helper) + 2 * length (ModelAdminGroup.items EventsGroup))%nat.
Proof.
  split; [reflexivity|].
  apply (group_init_members EventsGroup [] (construct_group EventsGroup)
           (snd (ModelAdminGroup.__init__ EventsGroup []))).
  reflexivity.
Defined.

(** [derived_inspect_view_fields] at a class that excludes [author]. *)
Lemma derived_inspect_view_fields_witness :
  __init__ CustomBookAdmin None [] =
    (Ok (construct CustomBookAdmin), snd (__init__ CustomBookAdmin None [])) ∧
  get_meta (model CustomBookAdmin) = Ok book_meta ∧
  inspect_view_fields CustomBookAdmin = [] ∧
  ∃ fields, get_inspect_view_fields (construct CustomBookAdmin) = Ok fields ∧
    sublist fields (map name (get_fields book_meta)) ∧
    ∀ n, n ∈ fields ↔
      ∃ f, f ∈ get_fields book_meta ∧ name f = n ∧
        (n ∉ inspect_view_fields_exclude CustomBookAdmin) ∧
        concrete f = true ∧
        (is_relation f = false ∨
         (auto_created f = false ∧ related_model f ≠ None)).
Proof.
  split; [reflexivity|]. split; [reflexivity|]. split; [reflexivity|].
  apply (derived_inspect_view_fields CustomBookAdmin None []
           (construct CustomBookAdmin) (snd (__init__ CustomBookAdmin None []))
           book_meta); reflexivity.
Defined.

(** [admin_urls_routes] at a page model with the inspect view enabled. *)
Lemma admin_urls_routes_witness :
  __init__ HiddenEventPageAdmin None [] =
    (Ok (construct HiddenEventPageAdmin),
     snd (__init__ HiddenEventPageAdmin None [])) ∧
  ∃ pg uh,
    issubclass (model HiddenEventPageAdmin) Page = Ok pg ∧
    url_helper (construct HiddenEventPageAdmin) = Ok uh ∧
    get_admin_urls_for_registration (construct HiddenEventPageAdmin) =
      Ok (map (λ '(action, view_name),
                 {| regex := get_action_url_pattern uh action;
                    view := {| im_self := construct HiddenEventPageAdmin;
                               im_func := view_name |};
                    url_name := get_action_url_name uh action |})
            ([ ("index", "index_view"); ("create", "create_view");
               ("edit", "edit_view"); ("delete", "delete_view") ] ++
             (if inspect_view_enabled HiddenEventPageAdmin
              then [("inspect", "inspect_view")] else []) ++
             (if pg then [("choose_parent", "choose_parent_view")] else []))).
Proof.
  split; [reflexivity|].
  apply (admin_urls_routes HiddenEventPageAdmin None []
           (construct HiddenEventPageAdmin)
           (snd (__init__ HiddenEventPageAdmin None []))).
  reflexivity.
Defined.

Example hidden_event_page_admin_routes :
  map (λ u, (regex u, im_func (view u), url_name u)) <$>
    get_admin_urls_for_registration (construct HiddenEventPageAdmin) =
  Ok [ ("^modeladmin/index/$", "index_view", "modeladmin_index");
       ("^modeladmin/create/$", "create_view", "modeladmin_create");
       ("^modeladmin/edit/$", "edit_view", "modeladmin_edit");
       ("^modeladmin/delete/$", "delete_view", "modeladmin_delete");
       ("^modeladmin/inspect/$", "inspect_view", "modeladmin_inspect");
       ("^modeladmin/choose_parent/$", "choose_parent_view",
        "modeladmin_choose_parent") ].
Proof. reflexivity. Qed.

(** [group_admin_urls_count] at a group of three: 5 + 6 + 5 routes. *)
Lemma group_admin_urls_count_witness :
  ModelAdminGroup.__init__ EventsGroup [] =
    (Ok (construct_group EventsGroup), snd (ModelAdminGroup.__init__ EventsGroup [])) ∧
  ∃ urls,
    ModelAdminGroup.get_admin_urls_for_registration (construct_group EventsGroup) =
      Ok urls ∧
    length urls = sum_list (route_count <$> ModelAdminGroup.items EventsGroup).
Proof.
  split; [reflexivity|].
  apply (group_admin_urls_count EventsGroup [] (construct_group EventsGroup)
           (snd (ModelAdminGroup.__init__ EventsGroup []))).
  reflexivity.
Defined.

Example events_group_route_count :
  sum_list (route_count <$> ModelAdminGroup.items EventsGroup) = 16%nat.
Proof. reflexivity. Qed.

(** The members' own menu orders (200, 300, unset) play no part in the
    submenu. *)
Example events_group_submenu_orders :
  item_order <$> ModelAdminGroup.get_submenu_items (construct_group EventsGroup) =
    [1; 2; 3].
Proof. reflexivity. Qed.

(** [group_menu_item_iff_items] at a group without items. *)
Lemma group_menu_item_iff_items_witness :
  ModelAdminGroup.__init__ EmptyGroup [] =
    (Ok (construct_group EmptyGroup), snd (ModelAdminGroup.__init__ EmptyGroup [])) ∧
  (ModelAdminGroup.items EmptyGroup = [] →
     ModelAdminGroup.get_menu_item (construct_group EmptyGroup) = None) ∧
  (ModelAdminGroup.items EmptyGroup ≠ [] →
     ∃ item, ModelAdminGroup.get_menu_item (construct_group EmptyGroup) = Some item ∧
       ModelAdminGroup.item_group item = construct_group EmptyGroup ∧
       ModelAdminGroup.group_item_order item =
         ModelAdminGroup.get_menu_order (construct_group EmptyGroup) ∧
       length (ModelAdminGroup.submenu item) =
         length (ModelAdminGroup.items EmptyGroup)).
Proof.
  split; [reflexivity|].
  apply (group_menu_item_iff_items EmptyGroup [] (construct_group EmptyGroup)
           (snd (ModelAdminGroup.__init__ EmptyGroup []))).
  reflexivity.
Defined.

(** [group_permissions_union] at a group of two. *)
Lemma group_permissions_union_witness :
  ModelAdminGroup.__init__ LibraryGroup [] =
    (Ok (construct_group LibraryGroup), snd (ModelAdminGroup.__init__ LibraryGroup [])) ∧
  ∃ qs,
    ModelAdminGroup.get_permissions_for_registration (construct_group LibraryGroup) =
      Ok qs ∧
    ∀ p, p ∈ qs ↔
      ∃ instance ps,
        instance ∈ ModelAdminGroup.modeladmin_instances (construct_group LibraryGroup) ∧
        ModelAdmin.get_permissions_for_registration instance = Ok ps ∧
        p ∈ ps.
Proof.
  split; [reflexivity|].
  apply (group_permissions_union LibraryGroup [] (construct_group LibraryGroup)
           (snd (ModelAdminGroup.__init__ LibraryGroup []))).
  reflexivity.
Defined.

(** [group_permissions_empty] at a group of a page model and a snippet. *)
Lemma group_permissions_empty_witness :
  ModelAdminGroup.__init__ ContentGroup [] =
    (Ok (construct_group ContentGroup), snd (ModelAdminGroup.__init__ ContentGroup [])) ∧
  Forall (λ c, issubclass (model c) Page = Ok true ∨
               class_in (model c) SNIPPET_MODELS = true)
    (ModelAdminGroup.items ContentGroup) ∧
  ModelAdminGroup.get_permissions_for_registration (construct_group ContentGroup) =
    Ok ∅.
Proof.
  assert (Forall (λ c, issubclass (model c) Page = Ok true ∨
                       class_in (model c) SNIPPET_MODELS = true)
            (ModelAdminGroup.items ContentGroup)) as Hitems.
  { constructor; [left; reflexivity|]. constructor; [right; reflexivity|].
    constructor. }
  split; [reflexivity|]. split; [exact Hitems|].
  apply (group_permissions_empty ContentGroup [] (construct_group ContentGroup)
           (snd (ModelAdminGroup.__init__ ContentGroup []))); [reflexivity|exact Hitems].
Defined.

(** [will_modify_iff_hidden_page] at a non-page model. *)
Lemma will_modify_iff_hidden_page_witness :
  __init__ CustomBookAdmin None [] =
    (Ok (construct CustomBookAdmin), snd (__init__ CustomBookAdmin None [])) ∧
  ∃ pg, issubclass (model CustomBookAdmin) Page = Ok pg ∧
    ModelAdmin.will_modify_explorer_page_queryset (construct CustomBookAdmin) =
      Ok (pg && exclude_from_explorer CustomBookAdmin).
Proof.
  split; [reflexivity|].
  apply (will_modify_iff_hidden_page CustomBookAdmin None []
           (construct CustomBookAdmin) (snd (__init__ CustomBookAdmin None []))).
  reflexivity.
Defined.

(** [group_will_modify_iff_some_item] at a group with one hidden page
    model. *)
Lemma group_will_modify_iff_some_item_witness :
  ModelAdminGroup.__init__ EventsGroup [] =
    (Ok (construct_group EventsGroup), snd (ModelAdminGroup.__init__ EventsGroup [])) ∧
  ModelAdminGroup.will_modify_explorer_page_queryset (construct_group EventsGroup) =
    Ok (existsb hidden_from_explorer (ModelAdminGroup.items EventsGroup)).
Proof.
  split; [reflexivity|].
  apply (group_will_modify_iff_some_item EventsGroup []
           (construct_group EventsGroup)
           (snd (ModelAdminGroup.__init__ EventsGroup []))).
  reflexivity.
Defined.

(** [modify_identity_unless_will_modify] at a group that hides nothing. *)
Lemma modify_identity_unless_will_modify_witness :
  WagtailRegisterable.will_modify_explorer_page_queryset
    (WagtailRegisterable.GroupInstance (construct_group LibraryGroup)) = Ok false ∧
  WagtailRegisterable.modify_explorer_page_queryset
    (WagtailRegisterable.GroupInstance (construct_group LibraryGroup))
    "root" explorer_pages {| path := "/admin/pages/" |} = Ok explorer_pages.
Proof.
  split; [reflexivity|].
  apply (modify_identity_unless_will_modify
           (WagtailRegisterable.GroupInstance (construct_group LibraryGroup))
           "root" explorer_pages {| path := "/admin/pages/" |}).
  reflexivity.
Defined.

(** [group_modify_composition] at a group with one hidden page model. *)
Lemma group_modify_composition_witness :
  ModelAdminGroup.__init__ EventsGroup [] =
    (Ok (construct_group EventsGroup), snd (ModelAdminGroup.__init__ EventsGroup [])) ∧
  ModelAdminGroup.modify_explorer_page_queryset (construct_group EventsGroup)
    "root" explorer_pages {| path := "/admin/pages/" |} =
    Ok (fold_left
          (λ queryset c,
             if hidden_from_explorer c then not_type queryset (model c)
             else queryset)
          (ModelAdminGroup.items EventsGroup) explorer_pages).
Proof.
  split; [reflexivity|].
  apply (group_modify_composition EventsGroup [] (construct_group EventsGroup)
           (snd (ModelAdminGroup.__init__ EventsGroup []))
           "root" explorer_pages {| path := "/admin/pages/" |}).
  reflexivity.
Defined.

Example events_group_hides_event_pages :
  ModelAdminGroup.modify_explorer_page_queryset (construct_group EventsGroup)
    "root" explorer_pages {| path := "/admin/pages/" |} =
    Ok (["tests.HomePage"] : @PageQuerySet explorer_env).
Proof. reflexivity. Qed.

(** [modeladmin_register_admin] at a hidden page model, in the settings
    menu. *)
Lemma modeladmin_register_admin_witness :
  valid_django_model (model HiddenEventPageAdmin) = true ∧
  ∃ helpers' added,
    WagtailRegisterable.modeladmin_register true
      (WagtailRegisterable.AdminClass HiddenEventPageAdmin) [] [] =
      (Ok (), helpers', [] ++ added) ∧
    length helpers' = (length ([] : list Helper) + 2)%nat ∧
    fst <$> added =
      standard_hooks true ++
      (if hidden_from_explorer HiddenEventPageAdmin
       then ["construct_explorer_page_queryset"] else []).
Proof.
  split; [reflexivity|].
  apply (modeladmin_register_admin true HiddenEventPageAdmin [] []). reflexivity.
Defined.

Example register_hook_names_at_examples :
  fst <$> snd (WagtailRegisterable.modeladmin_register true
                 (WagtailRegisterable.AdminClass HiddenEventPageAdmin) [] []) =
    [ "register_permissions"; "register_admin_urls";
      "register_settings_menu_item"; "construct_explorer_page_queryset" ] ∧
  fst <$> snd (WagtailRegisterable.modeladmin_register false
                 (WagtailRegisterable.GroupClass LibraryGroup) [] []) =
    [ "register_permissions"; "register_admin_urls"; "register_admin_menu_item" ].
Proof. split; reflexivity. Qed.

(** [modeladmin_register_group] at a group with one hidden page model. *)
Lemma modeladmin_register_group_witness :
  Forall (λ c, valid_django_model (model c) = true) (ModelAdminGroup.items EventsGroup) ∧
  ∃ helpers' added,
    WagtailRegisterable.modeladmin_register false
      (WagtailRegisterable.GroupClass EventsGroup) [] [] =
      (Ok (), helpers', [] ++ added) ∧
    length helpers' =
      (length ([] : list Helper) + 2 * length (ModelAdminGroup.items EventsGroup))%nat ∧
    fst <$> added =
      standard_hooks false ++
      (if existsb hidden_from_explorer (ModelAdminGroup.items EventsGroup)
       then ["construct_explorer_page_queryset"] else []).
Proof.
  assert (Forall (λ c, valid_django_model (model c) = true)
            (ModelAdminGroup.items EventsGroup)) as Hvalid.
  { repeat constructor. }
  split; [exact Hvalid|].
  apply (modeladmin_register_group false EventsGroup [] []). exact Hvalid.
Defined.

(** [modeladmin_register_failure] at a group whose second item has no
    model: the first item's helpers were instantiated, no hook was
    registered. *)
Lemma modeladmin_register_failure_witness :
  WagtailRegisterable.modeladmin_register false
    (WagtailRegisterable.GroupClass BrokenGroup) [] [] =
    (Raise ImproperlyConfigured, snd (ModelAdminGroup.__init__ BrokenGroup []), []) ∧
  WagtailRegisterable.new (WagtailRegisterable.GroupClass BrokenGroup) [] =
    (Raise ImproperlyConfigured, snd (ModelAdminGroup.__init__ BrokenGroup [])) ∧
  ([] : list (string * WagtailRegisterable.HookFn)) = [].
Proof.
  split; [reflexivity|].
  apply (modeladmin_register_failure false
           (WagtailRegisterable.GroupClass BrokenGroup) [] []
           ImproperlyConfigured (snd (ModelAdminGroup.__init__ BrokenGroup [])) []).
  reflexivity.
Defined.

(** [admin_thumb_image_replaces_default] at an object with a cover image
    and a mixin with a default. *)
Lemma admin_thumb_image_replaces_default_witness :
  let self := {| ThumbnailMixin.thumb_image_field_name := "cover";
                 ThumbnailMixin.thumb_image_filter_spec := "fill-50x50";
                 ThumbnailMixin.thumb_image_width := 50;
                 ThumbnailMixin.thumb_classname := "admin-thumb";
                 ThumbnailMixin.thumb_default := Some "/static/none.png" |} in
  let obj : gmap string (option Image) := {[ "cover" := Some "dune" ]} in
  obj !! ThumbnailMixin.thumb_image_field_name self = Some (Some "dune") ∧
  ThumbnailMixin.admin_thumb self obj =
    Ok ("<img" +:+
        flatatt {[ "src" := HStr (get_rendition_url "dune"
                                    (ThumbnailMixin.thumb_image_filter_spec self));
                   "width" := HInt (ThumbnailMixin.thumb_image_width self);
                   "class" := HStr (ThumbnailMixin.thumb_classname self) ]} +:+ ">").
Proof.
  intros self obj. split; [reflexivity|].
  apply (admin_thumb_image_replaces_default self obj "dune"). reflexivity.
Defined.

(** [group_app_label_from_first_item] at a group of two. *)
Lemma group_app_label_from_first_item_witness :
  ModelAdminGroup.__init__ LibraryGroup [] =
    (Ok (construct_group LibraryGroup), snd (ModelAdminGroup.__init__ LibraryGroup [])) ∧
  match ModelAdminGroup.items LibraryGroup with
  | [] => ModelAdminGroup.get_app_label_from_subitems (construct_group LibraryGroup) =
            Ok ""
  | c :: _ =>
      ∃ o, get_meta (model c) = Ok o ∧
        ModelAdminGroup.get_app_label_from_subitems (construct_group LibraryGroup) =
          Ok (str_title (app_label o))
  end.
Proof.
  split; [reflexivity|].
  apply (group_app_label_from_first_item LibraryGroup []
           (construct_group LibraryGroup)
           (snd (ModelAdminGroup.__init__ LibraryGroup []))).
  reflexivity.
Defined.

Example title_at_examples :
  ascii_title "wagtail core_tests" = "Wagtail Core_Tests" ∧
  ascii_title "they're HERE" = "They'Re Here" ∧
  ModelAdminGroup.get_app_label_from_subitems (construct_group LibraryGroup) =
    Ok "Tests".
Proof. repeat split. Qed.
End further_examples.
